(** * The JUnit report splitter of [pipeline/handleresult.py]

  A shallow embedding of [TestResult.splitRP] and of the parts of the
  Python runtime it relies on ([str], [dict], [xml.dom.minidom] trees,
  exceptions, the file system), followed by the properties of the
  split that the specification states. *)

From Stdlib Require Import ZArith String Ascii List Lia DecimalString.
From stdpp Require Import base option list strings gmap.

Local Open Scope string_scope.
Local Open Scope Z_scope.
Local Open Scope list_scope.

(** ** Python values *)

Module Py.

(** [sub in s] on strings.  Strings are sequences of bytes here (UTF-8);
    the patterns the script looks for are ASCII, so matching on bytes and
    matching on code points agree. *)
Fixpoint str_in (sub s : string) : bool :=
  String.prefix sub s ||
  match s with
  | EmptyString => false
  | String _ s' => str_in sub s'
  end.

(** [s.replace(old, new)] for a one-character [old]. *)
Fixpoint replace (s : string) (old : ascii) (new : string) : string :=
  match s with
  | EmptyString => EmptyString
  | String c s' =>
      if Ascii.eqb c old then new +:+ replace s' old new
      else String c (replace s' old new)
  end.

(** [str(n)] for an [int]. *)
Definition str (n : Z) : string := NilZero.string_of_int (Z.to_int n).

(** [str(b)] for a [bool]. *)
Definition str_bool (b : bool) : string := if b then "True" else "False".

(** A [dict] with string keys: keys are unique and keep the order in
    which they were first inserted. *)
Definition dict (V : Type) : Type := list (string * V).

Section Dict.
Context {V : Type}.

Fixpoint get (d : dict V) (k : string) : option V :=
  match d with
  | [] => None
  | (k', v) :: d' => if String.eqb k' k then Some v else get d' k
  end.

(** [d[k] = v]: an existing key keeps its place. *)
Fixpoint set (d : dict V) (k : string) (v : V) : dict V :=
  match d with
  | [] => [(k, v)]
  | (k', v') :: d' =>
      if String.eqb k' k then (k', v) :: d' else (k', v') :: set d' k v
  end.

Definition items (d : dict V) : list (string * V) := d.
End Dict.

End Py.

(** ** [xml.dom.minidom] trees *)

Module Dom.

#[local] Set Warnings "-register-all".

(** Nodes of a parsed document.  An element's attributes are the dict
    [_attrs] of minidom, keyed by qualified name. *)
Inductive node : Type :=
| Element (tagName : string) (attributes : Py.dict string) (childNodes : list node)
| Text (data : string)
| CDATASection (data : string)
| Comment (data : string)
| ProcessingInstruction (target data : string)
| DocumentType (name : string).

Record document : Type := Document { doc_childNodes : list node }.

Definition childNodes (n : node) : list node :=
  match n with
  | Element _ _ cs => cs
  | _ => []
  end.

(** The test of [_get_elements_by_tagName_helper]: an element node whose
    tag is [name], or any element when [name] is the wildcard. *)
Definition tag_matches (name : string) (n : node) : bool :=
  match n with
  | Element t _ _ => String.eqb name "*" || String.eqb t name
  | _ => false
  end.

(** What one child contributes to the result list of
    [_get_elements_by_tagName_helper]: itself when it matches, then the
    matches below it, in document order. *)
Fixpoint elements_from (name : string) (n : node) : list node :=
  (if tag_matches name n then [n] else []) ++
  match n with
  | Element _ _ cs => flat_map (elements_from name) cs
  | _ => []
  end.

Definition getElementsByTagName (parent : node) (name : string) : list node :=
  flat_map (elements_from name) (childNodes parent).

Definition doc_getElementsByTagName (d : document) (name : string) : list node :=
  flat_map (elements_from name) (doc_childNodes d).

(** [getAttribute] answers the empty string for a missing attribute. *)
Definition getAttribute (n : node) (attname : string) : string :=
  match n with
  | Element _ attrs _ => default "" (Py.get attrs attname)
  | _ => ""
  end.

Definition setAttribute (n : node) (attname value : string) : node :=
  match n with
  | Element t attrs cs => Element t (Py.set attrs attname value) cs
  | _ => n
  end.

Definition appendChild (n child : node) : node :=
  match n with
  | Element t attrs cs => Element t attrs (cs ++ [child])
  | _ => n
  end.

Definition createElement (tagName : string) : node := Element tagName [] [].

(** [cloneNode(deep)]: a fresh element with the same tag and attributes
    and, when [deep], clones of the children. *)
Fixpoint cloneNode (deep : bool) (n : node) : node :=
  match n with
  | Element t attrs cs =>
      Element t attrs (if deep then map (cloneNode true) cs else [])
  | Text d => Text d
  | CDATASection d => CDATASection d
  | Comment d => Comment d
  | ProcessingInstruction t d => ProcessingInstruction t d
  | DocumentType nm => DocumentType nm
  end.

Definition createDocument : document := Document [].

Definition doc_appendChild (d : document) (n : node) : document :=
  Document (doc_childNodes d ++ [n]).

(** [d] lies strictly below [n], at any depth. *)
Inductive descendant (n : node) : node → Prop :=
| desc_child c : In c (childNodes n) → descendant n c
| desc_deeper c d : In c (childNodes n) → descendant c d → descendant n d.

End Dom.

(** ** The process environment: files, standard output, exceptions *)

Module Runtime.

(** The exceptions the script can meet.  All three are subclasses of
    [Exception]; each carries the text that [str(e)] shows. *)
Inductive exn : Type :=
| FileNotFoundError (msg : string)
| ExpatError (msg : string)
| IndexError (msg : string).

Definition exn_str (e : exn) : string :=
  match e with
  | FileNotFoundError m | ExpatError m | IndexError m => m
  end.

(** The files of the working directory, by path, and the lines printed so
    far. *)
Record world : Type := World {
  files : gmap string string;
  stdout : list string
}.

Inductive result (A : Type) : Type :=
| Ok (a : A)
| Raise (e : exn).
Arguments Ok {A} a.
Arguments Raise {A} e.

(** A computation runs in a world, and returns or raises; what it wrote
    before raising stays written. *)
Definition M (A : Type) : Type := world → result A * world.

#[export] Instance M_ret : MRet M := λ A a w, (Ok a, w).

#[export] Instance M_bind : MBind M := λ A B f m w,
  match m w with
  | (Ok a, w') => f a w'
  | (Raise e, w') => (Raise e, w')
  end.

Definition raise {A : Type} (e : exn) : M A := λ w, (Raise e, w).

(** [try: body except ...: handler]: [handler e] is [None] when no
    [except] clause matches [e], which then propagates. *)
Definition try_except {A : Type} (body : M A) (handler : exn → option (M A)) : M A :=
  λ w, match body w with
       | (Ok a, w') => (Ok a, w')
       | (Raise e, w') =>
           match handler e with
           | Some h => h w'
           | None => (Raise e, w')
           end
       end.

(** [for x in l: body x]. *)
Fixpoint for_each {A : Type} (l : list A) (body : A → M unit) : M unit :=
  match l with
  | [] => mret tt
  | x :: l' => body x ≫= λ _, for_each l' body
  end.

Definition print (line : string) : M unit :=
  λ w, (Ok tt, World (files w) (stdout w ++ [line])).

(** Reading a whole file; a path that names no file raises
    [FileNotFoundError]. *)
Definition read_file (path : string) : M string :=
  λ w, match files w !! path with
       | Some content => (Ok content, w)
       | None =>
           (Raise (FileNotFoundError
              ("[Errno 2] No such file or directory: '" +:+ path +:+ "'")), w)
       end.

(** [open(path, "wb+")], write, close: the file is created or truncated,
    and holds exactly what was written.  The working directory is taken
    to be writable. *)
Definition write_file (path content : string) : M unit :=
  λ w, (Ok tt, World (<[path := content]> (files w)) (stdout w)).

(** [l[0]]. *)
Definition first {A : Type} (l : list A) : M A :=
  match l with
  | x :: _ => mret x
  | [] => raise (IndexError "list index out of range")
  end.

End Runtime.

(** ** [class TestResult] *)

Import Runtime.

Record TestResult : Type := { isJenkinsEnv : bool }.

(** [__init__]: looks the agent variable up in [os.environ] and prints the
    flag; the two-character escape of the source is printed as written. *)
Definition TestResult_init (environ : gmap string string) : M TestResult :=
  let self := {| isJenkinsEnv := bool_decide (is_Some (environ !! "JENKINS_AGENT_NAME")) |} in
  print ("isJenkinsEnv: " +:+ Py.str_bool (isJenkinsEnv self) +:+ "\n") ≫= λ _,
  mret self.

(** The record [{"case": ..., "names": ...}] kept for every bucketed case. *)
Record casedesc : Type := { case : Dom.node; names : list string }.

(** A value of [mods]: the bucket of one subteam. *)
Record modrec : Type := {
  cases : list casedesc;
  tests : Z;
  skipped : Z;
  failure : Z;
  errors : Z
}.

(** Lines 22-50: the body of [for case in cases], as a change of [mods]. *)
Definition bucket_case (mods : Py.dict modrec) (case : Dom.node) : Py.dict modrec :=
  let failcount := 0 in
  let skippedcount := 0 in
  let errorcount := 0 in
  let failcount :=
    if negb (Z.of_nat (length (Dom.getElementsByTagName case "failure")) =? 0)
    then 1 else failcount in
  let skippedcount :=
    if negb (Z.of_nat (length (Dom.getElementsByTagName case "skipped")) =? 0)
    then 1 else skippedcount in
  let name := Dom.getAttribute case "name" in
  let subteam := "Cluster_Infrastructure" in
  let names : list string := [] in
  if negb (Py.str_in "[BeforeSuite]" name) then
    let tmpname := Py.replace name "'" "" in
    let names := names ++ [tmpname] in
    let casedesc := {| case := case; names := names |} in
    match Py.get mods subteam with
    | Some m =>
        Py.set mods subteam
          {| cases := cases m ++ [casedesc];
             tests := tests m + 1;
             skipped := skipped m + skippedcount;
             failure := failure m + failcount;
             errors := errors m |}
    | None =>
        Py.set mods subteam
          {| cases := [casedesc];
             tests := 1;
             skipped := skippedcount;
             failure := failcount;
             errors := errorcount |}
    end
  else mods.

(** Lines 73-77: the verdict on one case; the later test overrides. *)
Definition case_result (c : Dom.node) : string :=
  let result := "PASS" in
  let result :=
    if negb (Z.of_nat (length (Dom.getElementsByTagName c "skipped")) =? 0)
    then "SKIP" else result in
  let result :=
    if negb (Z.of_nat (length (Dom.getElementsByTagName c "failure")) =? 0)
    then "FAIL" else result in
  result.

(** The state of the inner loops: the suite under construction and the
    three tallies of the current case. *)
Record tally : Type := {
  testsuite : Dom.node;
  testnum : Z;
  failnum : Z;
  skipnum : Z
}.

(** Lines 80-90: the body of [for name in case["names"]]. *)
Definition emit_name (c : Dom.node) (result : string) (t : tally) (name : string) : tally :=
  let testnum := testnum t in
  let failnum := failnum t in
  let skipnum := skipnum t in
  let testnum := if String.eqb result "PASS" then testnum + 1 else testnum in
  let '(testnum, failnum) :=
    if String.eqb result "FAIL" then (testnum + 1, failnum + 1) else (testnum, failnum) in
  let '(skipnum, testnum) :=
    if String.eqb result "SKIP" then (skipnum + 1, testnum + 1) else (skipnum, testnum) in
  let dupcase := Dom.cloneNode true c in
  let dupcase := Dom.setAttribute dupcase "name" name in
  {| testsuite := Dom.appendChild (testsuite t) dupcase;
     testnum := testnum; failnum := failnum; skipnum := skipnum |}.

(** The state of the loop over a bucket's cases: the suite and the three
    running totals. *)
Record totals : Type := {
  suite : Dom.node;
  testscount : Z;
  failurescount : Z;
  skippedcount : Z
}.

(** Lines 70-100: the body of [for case in v["cases"]]. *)
Definition emit_case (s : totals) (cd : casedesc) : totals :=
  let result := case_result (case cd) in
  let t :=
    fold_left (emit_name (case cd) result) (names cd)
      {| testsuite := suite s; testnum := 0; failnum := 0; skipnum := 0 |} in
  let testnum := if testnum t >? 0 then testnum t - 1 else testnum t in
  let failnum := if failnum t >? 0 then failnum t - 1 else failnum t in
  let skipnum := if skipnum t >? 0 then skipnum t - 1 else skipnum t in
  {| suite := testsuite t;
     testscount := testscount s + testnum;
     failurescount := failurescount s + failnum;
     skippedcount := skippedcount s + skipnum |}.

(** Lines 53-106: the document built for the bucket [k], [v]. *)
Definition build_document (self : TestResult) (origintestsuite : Dom.node)
    (k : string) (v : modrec) : Dom.document :=
  let newdoc := Dom.createDocument in
  let testsuite := Dom.createElement "testsuite" in
  let errorcount := errors v in
  let testsuite :=
    Dom.setAttribute testsuite "time" (Dom.getAttribute origintestsuite "time") in
  let newsuitename := if isJenkinsEnv self then k else k in
  let testsuite := Dom.setAttribute testsuite "name" newsuitename in
  let s :=
    fold_left emit_case (cases v)
      {| suite := testsuite; testscount := tests v;
         failurescount := failure v; skippedcount := skipped v |} in
  let testsuite := suite s in
  let testsuite := Dom.setAttribute testsuite "tests" (Py.str (testscount s)) in
  let testsuite := Dom.setAttribute testsuite "failures" (Py.str (failurescount s)) in
  let testsuite := Dom.setAttribute testsuite "skipped" (Py.str (skippedcount s)) in
  let testsuite := Dom.setAttribute testsuite "errors" (Py.str errorcount) in
  Dom.doc_appendChild newdoc testsuite.

Section SplitRP.

(** The two library routines the script calls on whole documents:
    expat's parser, which answers the error text for input that is not
    well-formed, and the serialiser [writexml] with UTF-8 encoding. *)
Variable expat_parse : string → string + Dom.document.
Variable writexml : Dom.document → string.

(** [xml.dom.minidom.parse(path)]. *)
Definition minidom_parse (path : string) : M Dom.document :=
  read_file path ≫= λ content,
  match expat_parse content with
  | inl msg => raise (ExpatError msg)
  | inr d => mret d
  end.

(** Lines 16-111: the body of the [try]. *)
Definition splitRP_body (self : TestResult) (input : string) : M unit :=
  minidom_parse input ≫= λ noderoot,
  first (Dom.doc_getElementsByTagName noderoot "testsuite") ≫= λ origintestsuite,
  let mods : Py.dict modrec := [] in
  let cases := Dom.doc_getElementsByTagName noderoot "testcase" in
  let mods := fold_left bucket_case cases mods in
  for_each (Py.items mods) (λ '(k, v),
    let newdoc := build_document self origintestsuite k v in
    write_file ("import-" +:+ k +:+ ".xml") (writexml newdoc)).

(** Lines 112-115: the two [except] clauses, tried in order. *)
Definition splitRP_handler (input : string) (e : exn) : option (M unit) :=
  match e with
  | FileNotFoundError _ =>
      Some (print ("Input file " +:+ input +:+ " is not present, please check!"))
  | ExpatError _ | IndexError _ =>
      Some (print ("Error occurred while parsing the file " +:+ input +:+ ": "
                   +:+ exn_str e))
  end.

Definition splitRP (self : TestResult) (input : string) : M unit :=
  try_except (splitRP_body self input) (splitRP_handler input).

End SplitRP.

(** ** Vocabulary of the specification *)

(** The one bucket key the script uses, and the file written for a key. *)
Definition subteam : string := "Cluster_Infrastructure".

Definition output_path (k : string) : string := "import-" +:+ k +:+ ".xml".

(** A case is excluded when its name holds the marker. *)
Definition excluded (c : Dom.node) : bool :=
  Py.str_in "[BeforeSuite]" (Dom.getAttribute c "name").

Definition included (c : Dom.node) : bool := negb (excluded c).

(** The display name, and the case as it is emitted under that name. *)
Definition display_name (c : Dom.node) : string :=
  Py.replace (Dom.getAttribute c "name") "'" "".

Definition renamed (c : Dom.node) : Dom.node :=
  Dom.setAttribute c "name" (display_name c).

(** The first-pass tests on a case: some [failure], some [skipped] element
    is found below it. *)
Definition has_failure (c : Dom.node) : bool :=
  negb (Z.of_nat (length (Dom.getElementsByTagName c "failure")) =? 0).

Definition has_skipped (c : Dom.node) : bool :=
  negb (Z.of_nat (length (Dom.getElementsByTagName c "skipped")) =? 0).

Definition count (p : Dom.node → bool) (l : list Dom.node) : Z :=
  Z.of_nat (length (List.filter p l)).

(** An element with the given tag. *)
Definition is_element (tag : string) (n : Dom.node) : Prop :=
  ∃ attrs cs, n = Dom.Element tag attrs cs.

(** A counter of the bucket [k] of [mods]; zero while the bucket does not
    exist. *)
Definition counter (f : modrec → Z) (mods : Py.dict modrec) (k : string) : Z :=
  match Py.get mods k with
  | Some m => f m
  | None => 0
  end.

(** Every membership of a case in a bucket, as (key, case), bucket after
    bucket. *)
Definition memberships (mods : Py.dict modrec) : list (string * Dom.node) :=
  flat_map (λ '(k, v), map (λ cd, (k, case cd)) (cases v)) mods.

(** The [testcase] elements a record gives rise to: one clone per name. *)
Definition emitted (cd : casedesc) : list Dom.node :=
  map (λ name, Dom.setAttribute (Dom.cloneNode true (case cd)) "name" name) (names cd).

(** The bucket that holds the cases [l], each under its display name. *)
Definition bucket_of (l : list Dom.node) : modrec :=
  {| cases := map (λ c, {| case := c; names := [display_name c] |}) l;
     tests := Z.of_nat (length l);
     skipped := count has_skipped l;
     failure := count has_failure l;
     errors := 0 |}.

Definition mods_of (l : list Dom.node) : Py.dict modrec :=
  match l with
  | [] => []
  | _ :: _ => [(subteam, bucket_of l)]
  end.

(** The suite element of an output document: the six attributes in the
    order they are set, then the cases. *)
Definition suite_element (time name : string) (tests failures skipped errors : Z)
    (children : list Dom.node) : Dom.node :=
  Dom.Element "testsuite"
    [("time", time); ("name", name); ("tests", Py.str tests);
     ("failures", Py.str failures); ("skipped", Py.str skipped);
     ("errors", Py.str errors)]
    children.

(** The document for a bucket when its summed counters are emitted as they
    are, with no per-case adjustment. *)
Definition summed_document (origintestsuite : Dom.node) (k : string) (v : modrec)
    : Dom.document :=
  Dom.Document
    [suite_element (Dom.getAttribute origintestsuite "time") k
       (tests v) (failure v) (skipped v) (errors v)
       (flat_map emitted (cases v))].

(** The documents of a run, with the paths they are written to. *)
Definition output_documents (self : TestResult) (origintestsuite : Dom.node)
    (cases : list Dom.node) : list (string * Dom.document) :=
  map (λ '(k, v), (output_path k, build_document self origintestsuite k v))
      (Py.items (fold_left bucket_case cases [])).

(** The [testcase] children of the suite elements of a document. *)
Definition suite_children (d : Dom.document) : list Dom.node :=
  flat_map Dom.childNodes (Dom.doc_childNodes d).

(** Writing documents, serialised, over a file system, in order. *)
Definition write_all (writexml : Dom.document → string)
    (docs : list (string * Dom.document)) (fs : gmap string string)
    : gmap string string :=
  fold_left (λ fs '(path, d), <[path := writexml d]> fs) docs fs.

(** ** Sample reports *)

Definition testcase (name : string) (children : list Dom.node) : Dom.node :=
  Dom.Element "testcase" [("name", name)] children.

(** One suite, timed 12.3, with a passing case [a] and a failing case
    whose name ends in a quote. *)
Definition example_report : Dom.document :=
  Dom.Document
    [Dom.Element "testsuite" [("time", "12.3")]
       [testcase "a" []; testcase "b'" [Dom.Element "failure" [] []]]].

(** One case that carries both a [failure] and a [skipped] child. *)
Definition both_case : Dom.node :=
  testcase "c" [Dom.Element "failure" [] []; Dom.Element "skipped" [] []].

Definition both_report : Dom.document :=
  Dom.Document [Dom.Element "testsuite" [("time", "1.5")] [both_case]].

(** A case whose [failure] element sits inside another child. *)
Definition nested_case : Dom.node :=
  testcase "deep" [Dom.Element "system-out" [] [Dom.Element "failure" [] []]].

Definition nested_skip_case : Dom.node :=
  testcase "deeper"
    [Dom.Element "properties" [] [Dom.Element "property" [] [Dom.Element "skipped" [] []]]].

Definition before_suite_case : Dom.node := testcase "[BeforeSuite] setup" [].

(** A well-formed report without any [testsuite] element. *)
Definition no_suite_report : Dom.document :=
  Dom.Document [Dom.Element "report" [] [testcase "a" []]].

(** A working directory that holds one report, and nothing printed yet. *)
Definition example_world : world :=
  World {[ "report.xml" := "<testsuite/>" ]} [].

(** A stand-in serialiser for the sample runs: the case names of the
    suite, separated by commas. *)
Definition names_only (d : Dom.document) : string :=
  String.concat "," (map (λ c, Dom.getAttribute c "name") (suite_children d)).

(** ** The script's entry point *)

Module Script.

(** What [parse_args] returns: the two options of the command line. *)
Record Namespace : Type := { action : string; input : string }.

(** Lines 126-129, run on the parsed options: build the [TestResult],
    split when the action asks for it and leave with status 0; a script
    that reaches its end leaves with status 0 as well. *)
Definition main (expat_parse : string → string + Dom.document)
    (writexml : Dom.document → string)
    (environ : gmap string string) (args : Namespace) : M Z :=
  TestResult_init environ ≫= λ testresult,
  if String.eqb (action args) "split" then
    splitRP expat_parse writexml testresult (input args) ≫= λ _,
    mret 0
  else mret 0.

End Script.

(** ** Vocabulary of the emission pass in general *)

(** The entries a record adds beyond its first: the number of names less
    one, and nothing when it has no name. *)
Definition extra_names (cd : casedesc) : Z :=
  Z.max 0 (Z.of_nat (length (names cd)) - 1).

(** The verdicts of the second pass on a record. *)
Definition verdict_fail (cd : casedesc) : bool := has_failure (case cd).

Definition verdict_skip (cd : casedesc) : bool :=
  has_skipped (case cd) && negb (has_failure (case cd)).

(** The extra entries of the records that satisfy [p]. *)
Definition sum_extra (p : casedesc → bool) (cds : list casedesc) : Z :=
  fold_right (λ cd acc, (if p cd then extra_names cd else 0) + acc) 0 cds.

(** The files after a run on a valid report whose included cases are [l]
    and whose first suite is [o]. *)
Definition files_after (writexml : Dom.document → string) (o : Dom.node)
    (l : list Dom.node) (fs : gmap string string) : gmap string string :=
  match l with
  | [] => fs
  | _ :: _ =>
      <[ output_path subteam :=
           writexml
             (Dom.Document
                [suite_element (Dom.getAttribute o "time") subteam
                   (Z.of_nat (length l)) (count has_failure l) (count has_skipped l) 0
                   (map renamed l)]) ]> fs
  end.

(** More sample reports. *)

Definition excluded_only_report : Dom.document :=
  Dom.Document [Dom.Element "testsuite" [("time", "0.1")] [before_suite_case]].

(** A case that holds another case. *)
Definition inner_case : Dom.node := testcase "inner'" [].

Definition outer_case : Dom.node := testcase "outer" [inner_case].

Definition nested_report : Dom.document :=
  Dom.Document [Dom.Element "testsuite" [("time", "2")] [outer_case]].

(** A case without a [name] attribute. *)
Definition nameless_case : Dom.node :=
  Dom.Element "testcase" [("classname", "suite")] [].

(** ** Strings and dicts *)

Lemma append_String (c : ascii) (s t : string) :
  String c s +:+ t = String c (s +:+ t).
Proof. reflexivity. Qed.

Lemma append_empty (t : string) : "" +:+ t = t.
Proof. reflexivity. Qed.

Lemma prefix_spec (sub s : string) :
  String.prefix sub s = true ↔ ∃ post, s = sub +:+ post.
Proof.
  revert s. induction sub as [|a sub IH]; intros [|b s]; simpl.
  - split; [intros _; by exists "" | done].
  - split; [intros _; by exists (String b s) | done].
  - split; [discriminate | intros [post H]; discriminate].
  - setoid_rewrite append_String.
    destruct (ascii_dec a b) as [->|Hne].
    + rewrite IH. split; intros [post H]; exists post; congruence.
    + split; [discriminate | intros [post H]; congruence].
Qed.

(** [str_in] decides the substring relation. *)
Lemma str_in_spec (sub s : string) :
  Py.str_in sub s = true ↔ ∃ pre post, s = pre +:+ sub +:+ post.
Proof.
  induction s as [|c s IH]; cbn [Py.str_in]; rewrite orb_true_iff, prefix_spec.
  - split.
    + intros [[post H]|H]; [|discriminate]. by exists "", post.
    + intros ([|a pre] & post & H); [left; by exists post | discriminate].
  - rewrite IH. split.
    + intros [[post H]|(pre & post & H)].
      * by exists "", post.
      * exists (String c pre), post. rewrite append_String. congruence.
    + intros ([|a pre] & post & H).
      * left. by exists post.
      * right. exists pre, post. rewrite append_String in H. congruence.
Qed.

(** Replacing a character by nothing keeps the other characters, in
    order. *)
Lemma replace_empty (s : string) (old : ascii) :
  list_ascii_of_string (Py.replace s old "")
  = List.filter (λ c, negb (Ascii.eqb c old)) (list_ascii_of_string s).
Proof.
  induction s as [|c s IH]; simpl; [reflexivity|].
  destruct (Ascii.eqb c old); simpl; rewrite ?append_empty; congruence.
Qed.

Lemma get_set_eq {V : Type} (d : Py.dict V) (k : string) (v : V) :
  Py.get (Py.set d k v) k = Some v.
Proof.
  induction d as [|[k' v'] d IH]; simpl.
  - by rewrite String.eqb_refl.
  - destruct (String.eqb k' k) eqn:E; simpl; rewrite E; auto.
Qed.

Lemma get_set_ne {V : Type} (d : Py.dict V) (k k' : string) (v : V) :
  k ≠ k' → Py.get (Py.set d k v) k' = Py.get d k'.
Proof.
  intros Hne. induction d as [|[k0 v0] d IH]; simpl.
  - destruct (String.eqb_spec k k'); congruence.
  - destruct (String.eqb_spec k0 k) as [->|]; simpl.
    + destruct (String.eqb_spec k k'); congruence.
    + destruct (String.eqb_spec k0 k'); congruence.
Qed.

(** Setting a key that is already there changes neither the keys nor
    their order. *)
Lemma set_keys {V : Type} (d : Py.dict V) (k : string) (v : V) :
  is_Some (Py.get d k) → map fst (Py.set d k v) = map fst d.
Proof.
  induction d as [|[k0 v0] d IH]; simpl; intros [x Hx]; [discriminate|].
  destruct (String.eqb k0 k); simpl; [reflexivity|]. f_equal. eauto.
Qed.

(** ** Trees *)

Section NodeInduction.

Variable P : Dom.node → Prop.
Hypothesis Helement : ∀ t attrs cs, Forall P cs → P (Dom.Element t attrs cs).
Hypothesis Htext : ∀ d, P (Dom.Text d).
Hypothesis Hcdata : ∀ d, P (Dom.CDATASection d).
Hypothesis Hcomment : ∀ d, P (Dom.Comment d).
Hypothesis Hpi : ∀ t d, P (Dom.ProcessingInstruction t d).
Hypothesis Hdoctype : ∀ nm, P (Dom.DocumentType nm).

(** Induction on a tree, with the property in hand for all children. *)
Lemma node_induction : ∀ n, P n.
Proof.
  fix IH 1. intros [t attrs cs|d|d|d|t d|nm];
    [|apply Htext|apply Hcdata|apply Hcomment|apply Hpi|apply Hdoctype].
  apply Helement. induction cs as [|c cs IHcs]; constructor.
  - apply IH.
  - exact IHcs.
Qed.

End NodeInduction.

(** Under value semantics a deep clone is the tree itself: what the script
    does to a clone cannot reach the input document. *)
Lemma cloneNode_deep (n : Dom.node) : Dom.cloneNode true n = n.
Proof.
  induction n as [t attrs cs IH| | | | |] using node_induction; simpl; try reflexivity.
  f_equal. induction IH as [|c cs Hc _ IHcs]; simpl; congruence.
Qed.

Lemma elements_from_self (name : string) (n : Dom.node) :
  Dom.tag_matches name n = true → In n (Dom.elements_from name n).
Proof.
  intros H. destruct n; simpl in *; try discriminate.
  rewrite H. by left.
Qed.

(** The search from a node finds the node itself and the nodes below it,
    at any depth, that pass the tag test. *)
Lemma elements_from_spec (name : string) (n d : Dom.node) :
  In d (Dom.elements_from name n)
  ↔ Dom.tag_matches name d = true ∧ (d = n ∨ Dom.descendant n d).
Proof.
  revert d.
  induction n as [t attrs cs IH| | | | |] using node_induction; intros x;
    try (simpl; split; [tauto | intros [Hx [->|Hdesc]]; [discriminate|];
         inversion Hdesc; simpl in *; tauto]).
  rename x into d.
  cbn [Dom.elements_from]. rewrite in_app_iff, in_flat_map.
  rewrite Forall_forall in IH. split.
  - intros [Hself|(c & Hc & Hd)].
    + destruct (Dom.tag_matches name (Dom.Element t attrs cs)) eqn:E;
        simpl in Hself; [|tauto].
      destruct Hself as [<-|[]]. auto.
    + apply IH in Hd; [|by apply list_elem_of_In].
      destruct Hd as [Hm [->|Hdesc]]; split; auto; right.
      * by apply Dom.desc_child.
      * by apply Dom.desc_deeper with c.
  - intros [Hm [->|Hdesc]].
    + left. rewrite Hm. by left.
    + right. inversion Hdesc as [c Hc|c d' Hc Hd]; subst; simpl in Hc.
      * exists d. split; [done|]. by apply elements_from_self.
      * exists c. split; [done|]. apply IH; [by apply list_elem_of_In|]. auto.
Qed.

(** [getElementsByTagName] on a node finds exactly the matching nodes
    strictly below it, whatever their depth. *)
Lemma getElementsByTagName_spec (parent : Dom.node) (name : string) (d : Dom.node) :
  In d (Dom.getElementsByTagName parent name)
  ↔ Dom.descendant parent d ∧ Dom.tag_matches name d = true.
Proof.
  unfold Dom.getElementsByTagName. rewrite in_flat_map. split.
  - intros (c & Hc & Hd). apply elements_from_spec in Hd as [Hm [->|Hdesc]].
    + split; [by apply Dom.desc_child | done].
    + split; [by apply Dom.desc_deeper with c | done].
  - intros [Hdesc Hm]. inversion Hdesc as [c Hc|c d' Hc Hd]; subst.
    + exists d. split; [done|]. by apply elements_from_self.
    + exists c. split; [done|]. apply elements_from_spec. auto.
Qed.

Lemma tag_matches_is_element (tag : string) (d : Dom.node) :
  tag ≠ "*" → Dom.tag_matches tag d = true ↔ is_element tag d.
Proof.
  intros Hne. destruct d as [t attrs cs| | | | |]; simpl;
    try (split; [discriminate | intros (? & ? & ?); discriminate]).
  destruct (String.eqb_spec tag "*"); [done|]. simpl.
  destruct (String.eqb_spec t tag) as [->|Hn]; split; try done.
  - intros _. by exists attrs, cs.
  - intros (? & ? & ?). congruence.
Qed.

Lemma nonempty_In {A : Type} (l : list A) :
  negb (Z.of_nat (length l) =? 0) = true ↔ ∃ x, In x l.
Proof.
  destruct l as [|x l]; simpl.
  - split; [discriminate | intros [? []]].
  - split; [eauto | reflexivity].
Qed.

Lemma has_failure_spec (c : Dom.node) :
  has_failure c = true ↔ ∃ d, Dom.descendant c d ∧ is_element "failure" d.
Proof.
  unfold has_failure. rewrite nonempty_In.
  setoid_rewrite getElementsByTagName_spec.
  by setoid_rewrite tag_matches_is_element.
Qed.

Lemma has_skipped_spec (c : Dom.node) :
  has_skipped c = true ↔ ∃ d, Dom.descendant c d ∧ is_element "skipped" d.
Proof.
  unfold has_skipped. rewrite nonempty_In.
  setoid_rewrite getElementsByTagName_spec.
  by setoid_rewrite tag_matches_is_element.
Qed.

(** ** The bucketing pass *)

Lemma count_snoc (p : Dom.node → bool) (l : list Dom.node) (c : Dom.node) :
  count p (l ++ [c]) = count p l + (if p c then 1 else 0).
Proof.
  unfold count. rewrite List.filter_app, length_app, Nat2Z.inj_add. simpl.
  by destruct (p c).
Qed.

Lemma bucket_case_excluded (mods : Py.dict modrec) (c : Dom.node) :
  excluded c = true → bucket_case mods c = mods.
Proof. unfold excluded, bucket_case. by intros ->. Qed.

Lemma bucket_case_included (mods : Py.dict modrec) (c : Dom.node) :
  included c = true →
  bucket_case mods c =
  Py.set mods subteam
    match Py.get mods subteam with
    | Some m =>
        {| cases := cases m ++ [{| case := c; names := [display_name c] |}];
           tests := tests m + 1;
           skipped := skipped m + (if has_skipped c then 1 else 0);
           failure := failure m + (if has_failure c then 1 else 0);
           errors := errors m |}
    | None =>
        {| cases := [{| case := c; names := [display_name c] |}];
           tests := 1;
           skipped := (if has_skipped c then 1 else 0);
           failure := (if has_failure c then 1 else 0);
           errors := 0 |}
    end.
Proof.
  unfold included, excluded, bucket_case. intros ->.
  change (Py.get mods "Cluster_Infrastructure") with (Py.get mods subteam).
  by destruct (Py.get mods subteam).
Qed.

Lemma bucket_case_mods_of (l : list Dom.node) (c : Dom.node) :
  bucket_case (mods_of l) c = if included c then mods_of (l ++ [c]) else mods_of l.
Proof.
  destruct (included c) eqn:Hc.
  - rewrite bucket_case_included by done.
    destruct l as [|c0 l]; simpl.
    + unfold bucket_of, count. simpl.
      by destruct (has_skipped c), (has_failure c).
    + f_equal. f_equal. change (c0 :: l ++ [c]) with ((c0 :: l) ++ [c]).
      unfold bucket_of.
      rewrite !count_snoc, map_app, length_app, Nat2Z.inj_add. reflexivity.
  - apply bucket_case_excluded. unfold included in Hc. by destruct (excluded c).
Qed.

Lemma bucketing_from (cs l : list Dom.node) :
  fold_left bucket_case cs (mods_of l) = mods_of (l ++ List.filter included cs).
Proof.
  revert l. induction cs as [|c cs IH]; intros l; simpl.
  - by rewrite app_nil_r.
  - rewrite bucket_case_mods_of. destruct (included c).
    + rewrite IH, <- app_assoc. reflexivity.
    + apply IH.
Qed.

(** After the first pass [mods] is empty when no case is included, and
    otherwise holds the one bucket of the included cases, in document
    order. *)
Lemma bucketing (cs : list Dom.node) :
  fold_left bucket_case cs [] = mods_of (List.filter included cs).
Proof. apply (bucketing_from cs []). Qed.

(** ** The emission pass *)

Lemma emit_names_suite (c : Dom.node) (result : string) (ns : list string) (t : tally) :
  testsuite (fold_left (emit_name c result) ns t)
  = fold_left Dom.appendChild
      (map (λ name, Dom.setAttribute (Dom.cloneNode true c) "name" name) ns)
      (testsuite t).
Proof.
  revert t. induction ns as [|n ns IH]; intros t; simpl; [reflexivity|].
  rewrite IH. f_equal. unfold emit_name.
  by destruct (String.eqb result "PASS"), (String.eqb result "FAIL"),
    (String.eqb result "SKIP").
Qed.

(** Whatever the names are, the suite receives one clone per name of
    every record, in order. *)
Lemma emit_cases_suite (cds : list casedesc) (s : totals) :
  suite (fold_left emit_case cds s)
  = fold_left Dom.appendChild (flat_map emitted cds) (suite s).
Proof.
  revert s. induction cds as [|cd cds IH]; intros s; simpl; [reflexivity|].
  rewrite IH, fold_left_app. f_equal. unfold emit_case. simpl.
  apply emit_names_suite.
Qed.

Lemma case_result_cases (c : Dom.node) :
  case_result c = "PASS" ∨ case_result c = "SKIP" ∨ case_result c = "FAIL".
Proof.
  unfold case_result.
  destruct (negb (Z.of_nat (length (Dom.getElementsByTagName c "skipped")) =? 0)),
    (negb (Z.of_nat (length (Dom.getElementsByTagName c "failure")) =? 0)); auto.
Qed.

(** A record with one name leaves the three totals as they are. *)
Lemma emit_case_single (s : totals) (cd : casedesc) :
  length (names cd) = 1%nat →
  emit_case s cd =
  {| suite := fold_left Dom.appendChild (emitted cd) (suite s);
     testscount := testscount s;
     failurescount := failurescount s;
     skippedcount := skippedcount s |}.
Proof.
  intros Hlen. unfold emit_case, emitted.
  destruct (names cd) as [|n [|? ?]]; try discriminate. simpl. unfold emit_name.
  destruct (case_result_cases (case cd)) as [->|[->| ->]]; simpl;
    f_equal; lia.
Qed.

Lemma emit_cases_single (cds : list casedesc) (s : totals) :
  Forall (λ cd, length (names cd) = 1%nat) cds →
  fold_left emit_case cds s =
  {| suite := fold_left Dom.appendChild (flat_map emitted cds) (suite s);
     testscount := testscount s;
     failurescount := failurescount s;
     skippedcount := skippedcount s |}.
Proof.
  intros Hall. revert s. induction Hall as [|cd cds Hcd _ IH]; intros s; simpl.
  - by destruct s.
  - rewrite IH, emit_case_single by done. simpl. by rewrite fold_left_app.
Qed.

Lemma appendChild_all (t : string) (attrs : Py.dict string) (cs l : list Dom.node) :
  fold_left Dom.appendChild l (Dom.Element t attrs cs) = Dom.Element t attrs (cs ++ l).
Proof.
  revert cs. induction l as [|x l IH]; intros cs; simpl.
  - by rewrite app_nil_r.
  - by rewrite IH, <- app_assoc.
Qed.

(** With one name per record the document built for a bucket carries the
    bucket's own counters. *)
Lemma build_document_single (self : TestResult) (o : Dom.node) (k : string) (v : modrec) :
  Forall (λ cd, length (names cd) = 1%nat) (cases v) →
  build_document self o k v = summed_document o k v.
Proof.
  intros Hall. unfold build_document. rewrite emit_cases_single by done.
  cbn [suite testscount failurescount skippedcount].
  assert (Hk : (if isJenkinsEnv self then k else k) = k) by by destruct (isJenkinsEnv self).
  rewrite Hk. unfold Dom.createElement. cbn [Dom.setAttribute Py.set].
  rewrite appendChild_all. reflexivity.
Qed.

Lemma emitted_display (c : Dom.node) :
  emitted {| case := c; names := [display_name c] |} = [renamed c].
Proof. unfold emitted, renamed. simpl. by rewrite cloneNode_deep. Qed.

Lemma emitted_bucket_of (l : list Dom.node) :
  flat_map emitted (cases (bucket_of l)) = map renamed l.
Proof.
  unfold bucket_of. cbn [cases].
  induction l as [|c l IH]; cbn [map flat_map]; [reflexivity|].
  by rewrite emitted_display, IH.
Qed.

Lemma bucket_of_single (l : list Dom.node) :
  Forall (λ cd, length (names cd) = 1%nat) (cases (bucket_of l)).
Proof. simpl. apply Forall_forall. intros cd. rewrite list_elem_of_In, in_map_iff. by intros (c & <- & _). Qed.

(** The documents of a run, in closed form: none when every case is
    excluded, and otherwise the one document of the included cases. *)
Lemma output_documents_closed (self : TestResult) (o : Dom.node) (cs : list Dom.node) :
  output_documents self o cs =
  match List.filter included cs with
  | [] => []
  | l =>
      [(output_path subteam,
        Dom.Document
          [suite_element (Dom.getAttribute o "time") subteam
             (Z.of_nat (length l)) (count has_failure l) (count has_skipped l) 0
             (map renamed l)])]
  end.
Proof.
  unfold output_documents. rewrite bucketing.
  destruct (List.filter included cs) as [|c l]; [reflexivity|].
  cbn [mods_of Py.items map]. rewrite build_document_single by apply bucket_of_single.
  unfold summed_document. by rewrite emitted_bucket_of.
Qed.

(** ** Runs of [splitRP] *)

Section Run.

Variable expat_parse : string → string + Dom.document.
Variable writexml : Dom.document → string.

Lemma for_each_write (self : TestResult) (o : Dom.node)
    (mods : list (string * modrec)) (w : world) :
  for_each mods (λ '(k, v),
    write_file ("import-" +:+ k +:+ ".xml") (writexml (build_document self o k v))) w
  = (Ok tt,
     World
       (write_all writexml
          (map (λ '(k, v), (output_path k, build_document self o k v)) mods)
          (files w))
       (stdout w)).
Proof.
  revert w. induction mods as [|[k v] mods IH]; intros w.
  - by destruct w.
  - cbn [for_each]. unfold mbind, M_bind. cbn [write_file].
    rewrite IH. reflexivity.
Qed.

Lemma bind_Ok {A B : Type} (m : M A) (f : A → M B) (w w' : world) (a : A) :
  m w = (Ok a, w') → (m ≫= f) w = f a w'.
Proof. unfold mbind, M_bind. by intros ->. Qed.

Lemma bind_Raise {A B : Type} (m : M A) (f : A → M B) (w w' : world) (e : exn) :
  m w = (Raise e, w') → (m ≫= f) w = (Raise e, w').
Proof. unfold mbind, M_bind. by intros ->. Qed.

Lemma minidom_parse_missing (input : string) (w : world) :
  files w !! input = None →
  ∃ msg, minidom_parse expat_parse input w = (Raise (FileNotFoundError msg), w).
Proof.
  intros Hin. eexists. unfold minidom_parse.
  apply bind_Raise. unfold read_file. by rewrite Hin.
Qed.

Lemma minidom_parse_malformed (input content msg : string) (w : world) :
  files w !! input = Some content →
  expat_parse content = inl msg →
  minidom_parse expat_parse input w = (Raise (ExpatError msg), w).
Proof.
  intros Hin Hparse. unfold minidom_parse.
  erewrite bind_Ok by (unfold read_file; by rewrite Hin).
  by rewrite Hparse.
Qed.

Lemma minidom_parse_Ok (input content : string) (doc : Dom.document) (w : world) :
  files w !! input = Some content →
  expat_parse content = inr doc →
  minidom_parse expat_parse input w = (Ok doc, w).
Proof.
  intros Hin Hparse. unfold minidom_parse.
  erewrite bind_Ok by (unfold read_file; by rewrite Hin).
  by rewrite Hparse.
Qed.

Lemma splitRP_missing (self : TestResult) (input : string) (w : world) :
  files w !! input = None →
  splitRP expat_parse writexml self input w
  = (Ok tt,
     World (files w)
       (stdout w ++ ["Input file " +:+ input +:+ " is not present, please check!"])).
Proof.
  intros Hin. destruct (minidom_parse_missing input w Hin) as [msg Hparse].
  unfold splitRP, try_except, splitRP_body.
  by erewrite bind_Raise by exact Hparse.
Qed.

Lemma splitRP_malformed (self : TestResult) (input content msg : string) (w : world) :
  files w !! input = Some content →
  expat_parse content = inl msg →
  splitRP expat_parse writexml self input w
  = (Ok tt,
     World (files w)
       (stdout w ++ ["Error occurred while parsing the file " +:+ input +:+ ": " +:+ msg])).
Proof.
  intros Hin Hparse. unfold splitRP, try_except, splitRP_body.
  by erewrite bind_Raise by (eapply minidom_parse_malformed; eassumption).
Qed.

Lemma splitRP_no_testsuite (self : TestResult) (input content : string)
    (doc : Dom.document) (w : world) :
  files w !! input = Some content →
  expat_parse content = inr doc →
  Dom.doc_getElementsByTagName doc "testsuite" = [] →
  splitRP expat_parse writexml self input w
  = (Ok tt,
     World (files w)
       (stdout w ++ ["Error occurred while parsing the file " +:+ input
                     +:+ ": list index out of range"])).
Proof.
  intros Hin Hparse Hnone. unfold splitRP, try_except, splitRP_body.
  erewrite bind_Ok by (eapply minidom_parse_Ok; eassumption).
  by erewrite bind_Raise by by rewrite Hnone.
Qed.

Lemma splitRP_valid (self : TestResult) (input content : string)
    (doc : Dom.document) (o : Dom.node) (rest : list Dom.node) (w : world) :
  files w !! input = Some content →
  expat_parse content = inr doc →
  Dom.doc_getElementsByTagName doc "testsuite" = o :: rest →
  splitRP expat_parse writexml self input w
  = (Ok tt,
     World
       (write_all writexml
          (output_documents self o (Dom.doc_getElementsByTagName doc "testcase"))
          (files w))
       (stdout w)).
Proof.
  intros Hin Hparse Hsuite. unfold splitRP, try_except, splitRP_body.
  erewrite bind_Ok by (eapply minidom_parse_Ok; eassumption).
  erewrite bind_Ok by by rewrite Hsuite.
  by rewrite for_each_write.
Qed.

End Run.

(** ** Counters of the first pass *)

Lemma bucket_case_counters (mods : Py.dict modrec) (c : Dom.node) :
  included c = true →
  counter tests (bucket_case mods c) subteam = counter tests mods subteam + 1
  ∧ counter failure (bucket_case mods c) subteam
    = counter failure mods subteam + (if has_failure c then 1 else 0)
  ∧ counter skipped (bucket_case mods c) subteam
    = counter skipped mods subteam + (if has_skipped c then 1 else 0)
  ∧ counter errors (bucket_case mods c) subteam = counter errors mods subteam.
Proof.
  intros Hc. rewrite bucket_case_included by done.
  unfold counter. rewrite get_set_eq.
  destruct (Py.get mods subteam); simpl; repeat split; lia.
Qed.

Lemma child_descendant (c d : Dom.node) :
  In d (Dom.childNodes c) → Dom.descendant c d.
Proof. apply Dom.desc_child. Qed.

(** A case with a [failure] child and a [skipped] child raises both
    counters in the first pass. *)
Lemma both_children_both_counters (mods : Py.dict modrec) (c f s : Dom.node) :
  included c = true →
  In f (Dom.childNodes c) → is_element "failure" f →
  In s (Dom.childNodes c) → is_element "skipped" s →
  counter failure (bucket_case mods c) subteam = counter failure mods subteam + 1
  ∧ counter skipped (bucket_case mods c) subteam = counter skipped mods subteam + 1.
Proof.
  intros Hc Hf Hfe Hs Hse.
  destruct (bucket_case_counters mods c Hc) as (_ & Hfail & Hskip & _).
  assert (has_failure c = true) as Ef
    by (apply has_failure_spec; exists f; auto using child_descendant).
  assert (has_skipped c = true) as Es
    by (apply has_skipped_spec; exists s; auto using child_descendant).
  by rewrite Hfail, Hskip, Ef, Es.
Qed.

(** ** The claims of the specification *)

(** C1 (the code departs from the claim).  The claim says that a case
    with both a [failure] and a [skipped] child is counted as a failure
    only.  On the report whose single case [c] has both children, the
    document written by [splitRP] carries [failures="1"] and also
    [skipped="1"]: the first pass raises the two counters independently,
    and only the verdict of the second pass lets the failure win. *)
Theorem C1_failure_and_skipped_both_counted
    (writexml : Dom.document → string) (self : TestResult) :
  splitRP (λ _, inr both_report) writexml self "report.xml" example_world
  = (Ok tt,
     World
       (<[ "import-Cluster_Infrastructure.xml" :=
             writexml
               (Dom.Document
                  [Dom.Element "testsuite"
                     [("time", "1.5"); ("name", "Cluster_Infrastructure");
                      ("tests", "1"); ("failures", "1"); ("skipped", "1");
                      ("errors", "0")]
                     [both_case]]) ]> (files example_world))
       (stdout example_world)).
Proof.
  erewrite splitRP_valid; [|reflexivity..].
  rewrite output_documents_closed. reflexivity.
Qed.

(** C2.  On the report with one suite timed 12.3 and the two cases [a]
    (passing) and [b'] (failing), [splitRP] writes exactly one file,
    [import-Cluster_Infrastructure.xml]; its suite has time 12.3, name
    [Cluster_Infrastructure], tests 2, failures 1, skipped 0, errors 0, and
    exactly the two cases named [a] and [b]. *)
Theorem C2_example_split
    (expat_parse : string → string + Dom.document)
    (writexml : Dom.document → string)
    (self : TestResult) (input content : string) (w : world) :
  files w !! input = Some content →
  expat_parse content = inr example_report →
  splitRP expat_parse writexml self input w
  = (Ok tt,
     World
       (<[ "import-Cluster_Infrastructure.xml" :=
             writexml
               (Dom.Document
                  [Dom.Element "testsuite"
                     [("time", "12.3"); ("name", "Cluster_Infrastructure");
                      ("tests", "2"); ("failures", "1"); ("skipped", "0");
                      ("errors", "0")]
                     [Dom.Element "testcase" [("name", "a")] [];
                      Dom.Element "testcase" [("name", "b")]
                        [Dom.Element "failure" [] []]]]) ]> (files w))
       (stdout w)).
Proof.
  intros Hin Hparse.
  erewrite splitRP_valid; [|eassumption|eassumption|reflexivity].
  rewrite output_documents_closed. reflexivity.
Qed.

Lemma C2_example_split_witness :
  files example_world !! "report.xml" = Some "<testsuite/>"
  ∧ splitRP (λ _, inr example_report) names_only {| isJenkinsEnv := false |}
      "report.xml" example_world
    = (Ok tt,
       World
         (<[ "import-Cluster_Infrastructure.xml" :=
               names_only
                 (Dom.Document
                    [Dom.Element "testsuite"
                       [("time", "12.3"); ("name", "Cluster_Infrastructure");
                        ("tests", "2"); ("failures", "1"); ("skipped", "0");
                        ("errors", "0")]
                       [Dom.Element "testcase" [("name", "a")] [];
                        Dom.Element "testcase" [("name", "b")]
                          [Dom.Element "failure" [] []]]]) ]>
            (files example_world))
         (stdout example_world)).
Proof.
  split; [reflexivity|].
  apply (C2_example_split (λ _, inr example_report) names_only
           {| isJenkinsEnv := false |} "report.xml" "<testsuite/>" example_world);
    reflexivity.
Defined.

Lemma memberships_mods_of (l : list Dom.node) :
  map snd (memberships (mods_of l)) = l.
Proof.
  destruct l as [|c l]; [reflexivity|].
  unfold memberships, mods_of, bucket_of. cbn [flat_map cases].
  rewrite app_nil_r, !map_map. cbn [case snd]. apply map_id.
Qed.

Lemma mods_of_keys (l : list Dom.node) : NoDup (map fst (mods_of l)).
Proof.
  destruct l; simpl; [constructor|].
  apply NoDup_singleton.
Qed.

(** C3.  On a valid report (one that parses and has a [testsuite]), the
    bucket memberships, read off bucket after bucket, are exactly the
    cases whose name lacks the marker, each once and in document order;
    bucket keys are distinct, so are the paths written, and the cases of
    the suites written are exactly those cases, renamed: none is dropped
    and none occurs twice. *)
Theorem C3_included_cases_exactly_once
    (expat_parse : string → string + Dom.document)
    (writexml : Dom.document → string)
    (self : TestResult) (input content : string) (doc : Dom.document)
    (o : Dom.node) (rest : list Dom.node) (w : world) :
  files w !! input = Some content →
  expat_parse content = inr doc →
  Dom.doc_getElementsByTagName doc "testsuite" = o :: rest →
  let cases := Dom.doc_getElementsByTagName doc "testcase" in
  let mods := fold_left bucket_case cases [] in
  let docs := output_documents self o cases in
  map snd (memberships mods) = List.filter included cases
  ∧ NoDup (map fst mods)
  ∧ splitRP expat_parse writexml self input w
    = (Ok tt, World (write_all writexml docs (files w)) (stdout w))
  ∧ NoDup (map fst docs)
  ∧ flat_map (λ pd, suite_children (snd pd)) docs
    = map renamed (List.filter included cases).
Proof.
  intros Hin Hparse Hsuite cases mods docs. subst mods docs.
  rewrite bucketing. split; [apply memberships_mods_of|].
  split; [apply mods_of_keys|].
  split; [by eapply splitRP_valid|].
  rewrite output_documents_closed.
  destruct (List.filter included cases) as [|c l]; simpl.
  - split; [constructor | reflexivity].
  - split; [apply NoDup_singleton|]. by rewrite !app_nil_r.
Qed.

Lemma C3_included_cases_exactly_once_witness :
  map snd
    (memberships
       (fold_left bucket_case (Dom.doc_getElementsByTagName example_report "testcase") []))
  = [testcase "a" []; testcase "b'" [Dom.Element "failure" [] []]]
  ∧ flat_map (λ pd, suite_children (snd pd))
      (output_documents {| isJenkinsEnv := true |}
         (Dom.Element "testsuite" [("time", "12.3")]
            [testcase "a" []; testcase "b'" [Dom.Element "failure" [] []]])
         (Dom.doc_getElementsByTagName example_report "testcase"))
    = [testcase "a" []; testcase "b" [Dom.Element "failure" [] []]].
Proof.
  pose proof
    (C3_included_cases_exactly_once (λ _, inr example_report) names_only
       {| isJenkinsEnv := true |} "report.xml" "<testsuite/>" example_report
       (Dom.Element "testsuite" [("time", "12.3")]
          [testcase "a" []; testcase "b'" [Dom.Element "failure" [] []]])
       [] example_world eq_refl eq_refl eq_refl) as (Hm & _ & _ & _ & Hd).
  split; [exact Hm | exact Hd].
Defined.

(** C4.  A case whose name contains [[BeforeSuite]] leaves [mods] as it
    was, whatever was bucketed before, so it joins no bucket and moves no
    counter; the documents of a run are those of the same run without the
    case. *)
Theorem C4_before_suite_excluded (c : Dom.node) (pre post : string) :
  Dom.getAttribute c "name" = pre +:+ "[BeforeSuite]" +:+ post →
  (∀ mods, bucket_case mods c = mods)
  ∧ (∀ self o l1 l2,
       output_documents self o (l1 ++ c :: l2) = output_documents self o (l1 ++ l2)).
Proof.
  intros Hname.
  assert (Hex : excluded c = true)
    by (unfold excluded; apply str_in_spec; eauto).
  split; [intros mods; by apply bucket_case_excluded|].
  intros self o l1 l2. unfold output_documents.
  rewrite !fold_left_app. simpl. by rewrite bucket_case_excluded.
Qed.

Lemma C4_before_suite_excluded_witness :
  (∀ mods, bucket_case mods before_suite_case = mods)
  ∧ (∀ self o l1 l2,
       output_documents self o (l1 ++ before_suite_case :: l2)
       = output_documents self o (l1 ++ l2)).
Proof.
  apply (C4_before_suite_excluded before_suite_case "" " setup"). reflexivity.
Defined.

(** C5.  When the input path names no file, [splitRP] writes nothing,
    prints the not-present line and returns; when the file is there but
    is not well-formed XML, it writes nothing, prints the generic error
    line with the parser's message and returns.  Neither run raises. *)
Theorem C5_missing_or_malformed_input
    (expat_parse : string → string + Dom.document)
    (writexml : Dom.document → string)
    (self : TestResult) (input : string) (w : world) :
  (files w !! input = None →
   splitRP expat_parse writexml self input w
   = (Ok tt,
      World (files w)
        (stdout w ++ ["Input file " +:+ input +:+ " is not present, please check!"])))
  ∧ (∀ content msg,
       files w !! input = Some content →
       expat_parse content = inl msg →
       splitRP expat_parse writexml self input w
       = (Ok tt,
          World (files w)
            (stdout w ++
               ["Error occurred while parsing the file " +:+ input +:+ ": " +:+ msg]))).
Proof.
  split.
  - apply splitRP_missing.
  - intros content msg. apply splitRP_malformed.
Qed.

Lemma C5_missing_or_malformed_input_witness :
  splitRP (λ _, inl "syntax error: line 1, column 0") names_only
    {| isJenkinsEnv := false |} "absent.xml" example_world
  = (Ok tt,
     World (files example_world)
       ["Input file absent.xml is not present, please check!"])
  ∧ splitRP (λ _, inl "syntax error: line 1, column 0") names_only
      {| isJenkinsEnv := false |} "report.xml" example_world
    = (Ok tt,
       World (files example_world)
         ["Error occurred while parsing the file report.xml: syntax error: line 1, column 0"]).
Proof.
  split.
  - apply (proj1 (C5_missing_or_malformed_input _ names_only
                    {| isJenkinsEnv := false |} "absent.xml" example_world)).
    reflexivity.
  - apply (proj2 (C5_missing_or_malformed_input
                    (λ _, inl "syntax error: line 1, column 0") names_only
                    {| isJenkinsEnv := false |} "report.xml" example_world)
             "<testsuite/>" "syntax error: line 1, column 0"); reflexivity.
Defined.

Lemma suite_element_attributes (time name : string) (t f s e : Z) (cs : list Dom.node) :
  let ts := suite_element time name t f s e cs in
  Dom.getAttribute ts "tests" = Py.str t
  ∧ Dom.getAttribute ts "failures" = Py.str f
  ∧ Dom.getAttribute ts "skipped" = Py.str s
  ∧ Dom.getAttribute ts "errors" = Py.str e.
Proof. repeat split. Qed.

(** C6.  For a bucket whose records hold one name each, the document
    built by the emission pass, which adjusts the totals case by case, is
    the document that carries the bucket's summed counters unadjusted: its
    [tests], [failures], [skipped] and [errors] attributes are the
    bucket's counters. *)
Theorem C6_single_name_adjustment_is_noop
    (self : TestResult) (o : Dom.node) (k : string) (v : modrec) :
  Forall (λ cd, length (names cd) = 1%nat) (cases v) →
  build_document self o k v = summed_document o k v
  ∧ ∃ ts, Dom.doc_childNodes (build_document self o k v) = [ts]
      ∧ Dom.getAttribute ts "tests" = Py.str (tests v)
      ∧ Dom.getAttribute ts "failures" = Py.str (failure v)
      ∧ Dom.getAttribute ts "skipped" = Py.str (skipped v)
      ∧ Dom.getAttribute ts "errors" = Py.str (errors v).
Proof.
  intros Hall. rewrite build_document_single by done.
  split; [reflexivity|]. eexists. split; [reflexivity|].
  apply suite_element_attributes.
Qed.

Lemma C6_single_name_adjustment_is_noop_witness :
  let v := {| cases := [{| case := testcase "a" []; names := ["a"] |};
                        {| case := both_case; names := ["c"] |}];
              tests := 2; skipped := 1; failure := 1; errors := 0 |} in
  Forall (λ cd, length (names cd) = 1%nat) (cases v)
  ∧ build_document {| isJenkinsEnv := true |} (Dom.Element "testsuite" [("time", "3")] [])
      "Cluster_Infrastructure" v
    = summed_document (Dom.Element "testsuite" [("time", "3")] [])
        "Cluster_Infrastructure" v.
Proof.
  intros v.
  assert (Hall : Forall (λ cd, length (names cd) = 1%nat) (cases v))
    by (repeat constructor).
  split; [exact Hall|].
  exact (proj1 (C6_single_name_adjustment_is_noop {| isJenkinsEnv := true |}
                  (Dom.Element "testsuite" [("time", "3")] [])
                  "Cluster_Infrastructure" v Hall)).
Defined.

(** The adjustment is not idle in general: a record with two names adds
    one to [tests]. *)
Example two_names_adjust :
  build_document {| isJenkinsEnv := false |} (Dom.Element "testsuite" [("time", "3")] [])
    "k" {| cases := [{| case := testcase "a" []; names := ["a"; "a2"] |}];
           tests := 1; skipped := 0; failure := 0; errors := 0 |}
  = Dom.Document
      [suite_element "3" "k" 2 0 0 0 [testcase "a" []; testcase "a2" []]].
Proof. reflexivity. Qed.

Lemma output_documents_env (self self' : TestResult) (o : Dom.node) (cs : list Dom.node) :
  output_documents self o cs = output_documents self' o cs.
Proof. by rewrite !output_documents_closed. Qed.

Lemma output_documents_write_twice (writexml : Dom.document → string)
    (self : TestResult) (o : Dom.node) (cs : list Dom.node) (fs : gmap string string) :
  write_all writexml (output_documents self o cs)
    (write_all writexml (output_documents self o cs) fs)
  = write_all writexml (output_documents self o cs) fs.
Proof.
  rewrite output_documents_closed.
  destruct (List.filter included cs); simpl; [reflexivity|].
  apply insert_insert_eq.
Qed.

Section Repeat.

Variable expat_parse : string → string + Dom.document.
Variable writexml : Dom.document → string.

(** The four kinds of run: the input is missing, is not well-formed, has
    no suite, or is valid.  Each is rewritten to its closed form. *)
Ltac run_kinds w input :=
  let content := fresh "content" in
  let Hin := fresh "Hin" in
  let Hparse := fresh "Hparse" in
  let Hsuite := fresh "Hsuite" in
  destruct (files w !! input) as [content|] eqn:Hin;
  [ destruct (expat_parse content) as [?msg|?doc] eqn:Hparse;
    [ erewrite !splitRP_malformed by done
    | match goal with
      | doc : Dom.document |- _ =>
          destruct (Dom.doc_getElementsByTagName doc "testsuite")
            as [|?o ?rest] eqn:Hsuite;
          [ erewrite !splitRP_no_testsuite by done
          | erewrite !splitRP_valid by done ]
      end ]
  | rewrite !splitRP_missing by done ].

(** [splitRP] never raises. *)
Lemma splitRP_returns (self : TestResult) (input : string) (w : world) :
  (splitRP expat_parse writexml self input w).1 = Ok tt.
Proof. run_kinds w input; reflexivity. Qed.

Lemma splitRP_env (self self' : TestResult) (input : string) (w : world) :
  splitRP expat_parse writexml self input w
  = splitRP expat_parse writexml self' input w.
Proof.
  run_kinds w input; try reflexivity.
  by rewrite (output_documents_env self self').
Qed.

(** A second run that finds the input as the first run found it leaves
    the files as the first run left them. *)
Lemma splitRP_twice (self : TestResult) (input : string) (w : world) :
  let w1 := (splitRP expat_parse writexml self input w).2 in
  files w1 !! input = files w !! input →
  files (splitRP expat_parse writexml self input w1).2 = files w1.
Proof.
  run_kinds w input; cbn [snd files]; intros Hsame.
  - by erewrite splitRP_malformed.
  - by erewrite splitRP_no_testsuite.
  - erewrite splitRP_valid by done. apply output_documents_write_twice.
  - by rewrite splitRP_missing.
Qed.

End Repeat.

(** C7.  The run does not depend on the agent flag: with the flag set or
    not, [splitRP] returns the same result in the same world.  And a second
    run, under either flag, that finds the input as the first run found it
    leaves every file as the first run left it: outputs are overwritten
    with the same bytes. *)
Theorem C7_same_files_on_rerun_and_under_either_flag
    (expat_parse : string → string + Dom.document)
    (writexml : Dom.document → string)
    (self self' : TestResult) (input : string) (w : world) :
  splitRP expat_parse writexml self input w
  = splitRP expat_parse writexml self' input w
  ∧ (let w1 := (splitRP expat_parse writexml self input w).2 in
     files w1 !! input = files w !! input →
     files (splitRP expat_parse writexml self' input w1).2 = files w1).
Proof.
  split; [apply splitRP_env|].
  intros w1 Hsame. rewrite (splitRP_env _ _ self' self). by apply splitRP_twice.
Qed.

Lemma C7_same_files_on_rerun_and_under_either_flag_witness :
  let run := splitRP (λ _, inr example_report) names_only in
  let w1 := (run {| isJenkinsEnv := true |} "report.xml" example_world).2 in
  run {| isJenkinsEnv := true |} "report.xml" example_world
  = run {| isJenkinsEnv := false |} "report.xml" example_world
  ∧ files w1 !! "report.xml" = files example_world !! "report.xml"
  ∧ files (run {| isJenkinsEnv := false |} "report.xml" w1).2 = files w1.
Proof.
  intros run w1.
  pose proof
    (C7_same_files_on_rerun_and_under_either_flag (λ _, inr example_report) names_only
       {| isJenkinsEnv := true |} {| isJenkinsEnv := false |}
       "report.xml" example_world) as [Henv Hrerun].
  assert (Hsame : files w1 !! "report.xml" = files example_world !! "report.xml")
    by reflexivity.
  split; [exact Henv|]. split; [exact Hsame|]. exact (Hrerun Hsame).
Defined.

Lemma doc_elements_match (doc : Dom.document) (name : string) (c : Dom.node) :
  In c (Dom.doc_getElementsByTagName doc name) → Dom.tag_matches name c = true.
Proof.
  unfold Dom.doc_getElementsByTagName. rewrite in_flat_map.
  intros (n & _ & Hc). by apply elements_from_spec in Hc as [Hm _].
Qed.

Lemma matching_node_is_element (name : string) (c : Dom.node) :
  Dom.tag_matches name c = true → ∃ t attrs cs, c = Dom.Element t attrs cs.
Proof. destruct c; try discriminate. eauto. Qed.

(** C8.  Every case of a suite that [splitRP] writes is the deep clone of
    a case of the input whose name lacks the marker, with [name] set to
    the input name without its quote characters: the tag and the children
    are those of the input case, and every attribute other than [name]
    reads as it did. *)
Theorem C8_emitted_case_is_renamed_clone
    (self : TestResult) (o : Dom.node) (doc : Dom.document)
    (path : string) (d : Dom.document) (e : Dom.node) :
  In (path, d) (output_documents self o (Dom.doc_getElementsByTagName doc "testcase")) →
  In e (suite_children d) →
  ∃ t attrs cs attrs',
    let c := Dom.Element t attrs cs in
    In c (Dom.doc_getElementsByTagName doc "testcase")
    ∧ included c = true
    ∧ e = Dom.setAttribute (Dom.cloneNode true c) "name"
            (Py.replace (Dom.getAttribute c "name") "'" "")
    ∧ e = Dom.Element t attrs' cs
    ∧ Py.get attrs' "name" = Some (Py.replace (Dom.getAttribute c "name") "'" "")
    ∧ ∀ k, k ≠ "name" → Py.get attrs' k = Py.get attrs k.
Proof.
  rewrite output_documents_closed. intros Hd He.
  destruct (List.filter included (Dom.doc_getElementsByTagName doc "testcase"))
    as [|c0 l] eqn:Hl; [destruct Hd|].
  destruct Hd as [[= <- <-]|[]].
  unfold suite_children, suite_element in He. cbn [Dom.doc_childNodes flat_map Dom.childNodes] in He.
  change (renamed c0 :: map renamed l) with (map renamed (c0 :: l)) in He.
  rewrite app_nil_r, in_map_iff, <- Hl in He. destruct He as (c & <- & Hc).
  apply filter_In in Hc as [Hin Hinc].
  destruct (matching_node_is_element _ _ (doc_elements_match _ _ _ Hin))
    as (t & attrs & cs & ->).
  exists t, attrs, cs, (Py.set attrs "name" (display_name (Dom.Element t attrs cs))).
  cbn zeta. rewrite cloneNode_deep. repeat split; try done.
  - apply get_set_eq.
  - intros k Hk. by apply get_set_ne.
Qed.

Lemma C8_emitted_case_is_renamed_clone_witness :
  ∃ t attrs cs attrs',
    let c := Dom.Element t attrs cs in
    In c (Dom.doc_getElementsByTagName example_report "testcase")
    ∧ included c = true
    ∧ testcase "b" [Dom.Element "failure" [] []]
      = Dom.setAttribute (Dom.cloneNode true c) "name"
          (Py.replace (Dom.getAttribute c "name") "'" "")
    ∧ testcase "b" [Dom.Element "failure" [] []] = Dom.Element t attrs' cs
    ∧ Py.get attrs' "name" = Some (Py.replace (Dom.getAttribute c "name") "'" "")
    ∧ ∀ k, k ≠ "name" → Py.get attrs' k = Py.get attrs k.
Proof.
  apply (C8_emitted_case_is_renamed_clone {| isJenkinsEnv := false |}
           (Dom.Element "testsuite" [("time", "12.3")] []) example_report
           "import-Cluster_Infrastructure.xml"
           (Dom.Document
              [suite_element "12.3" "Cluster_Infrastructure" 2 1 0 0
                 [testcase "a" []; testcase "b" [Dom.Element "failure" [] []]]])).
  - left. reflexivity.
  - right. left. reflexivity.
Defined.

(** C9.  On a well-formed report without any [testsuite] element, taking
    the first suite raises the index error before anything is written;
    the generic clause catches it, so [splitRP] writes no file, prints the
    error line and returns. *)
Theorem C9_no_testsuite_is_caught
    (expat_parse : string → string + Dom.document)
    (writexml : Dom.document → string)
    (self : TestResult) (input content : string) (doc : Dom.document) (w : world) :
  files w !! input = Some content →
  expat_parse content = inr doc →
  Dom.doc_getElementsByTagName doc "testsuite" = [] →
  splitRP_body expat_parse writexml self input w
  = (Raise (IndexError "list index out of range"), w)
  ∧ splitRP expat_parse writexml self input w
    = (Ok tt,
       World (files w)
         (stdout w ++ ["Error occurred while parsing the file " +:+ input
                       +:+ ": list index out of range"])).
Proof.
  intros Hin Hparse Hnone. split; [|by eapply splitRP_no_testsuite].
  unfold splitRP_body.
  erewrite bind_Ok by (eapply minidom_parse_Ok; eassumption).
  by erewrite bind_Raise by by rewrite Hnone.
Qed.

Lemma C9_no_testsuite_is_caught_witness :
  Dom.doc_getElementsByTagName no_suite_report "testsuite" = []
  ∧ splitRP (λ _, inr no_suite_report) names_only {| isJenkinsEnv := false |}
      "report.xml" example_world
    = (Ok tt,
       World (files example_world)
         ["Error occurred while parsing the file report.xml: list index out of range"]).
Proof.
  split; [reflexivity|].
  apply (C9_no_testsuite_is_caught (λ _, inr no_suite_report) names_only
           {| isJenkinsEnv := false |} "report.xml" "<testsuite/>" no_suite_report
           example_world); reflexivity.
Defined.

Lemma case_result_failure (c : Dom.node) :
  has_failure c = true → case_result c = "FAIL".
Proof. unfold has_failure, case_result. by intros ->. Qed.

(** C10.  A [failure] (respectively [skipped]) element anywhere below a
    bucketed case, at any depth, makes the first pass add one to the
    bucket's [failure] (respectively [skipped]) counter; with a [failure]
    below it, the second pass gives the case the verdict [FAIL]. *)
Theorem C10_markers_found_at_any_depth
    (mods : Py.dict modrec) (c d : Dom.node) :
  included c = true →
  Dom.descendant c d →
  (is_element "failure" d →
   counter failure (bucket_case mods c) subteam = counter failure mods subteam + 1
   ∧ case_result c = "FAIL")
  ∧ (is_element "skipped" d →
     counter skipped (bucket_case mods c) subteam = counter skipped mods subteam + 1).
Proof.
  intros Hc Hdesc.
  destruct (bucket_case_counters mods c Hc) as (_ & Hfail & Hskip & _).
  split; intros Hd.
  - assert (has_failure c = true) as E by (apply has_failure_spec; eauto).
    rewrite Hfail, E. split; [reflexivity | by apply case_result_failure].
  - assert (has_skipped c = true) as E by (apply has_skipped_spec; eauto).
    by rewrite Hskip, E.
Qed.

Lemma C10_markers_found_at_any_depth_witness :
  (counter failure (bucket_case [] nested_case) subteam = counter failure [] subteam + 1
   ∧ case_result nested_case = "FAIL")
  ∧ counter skipped (bucket_case [] nested_skip_case) subteam
    = counter skipped [] subteam + 1.
Proof.
  assert (Hf : Dom.descendant nested_case (Dom.Element "failure" [] [])).
  { eapply Dom.desc_deeper; [left; reflexivity|].
    apply Dom.desc_child. left. reflexivity. }
  assert (Hs : Dom.descendant nested_skip_case (Dom.Element "skipped" [] [])).
  { eapply Dom.desc_deeper; [left; reflexivity|].
    eapply Dom.desc_deeper; [left; reflexivity|].
    apply Dom.desc_child. left. reflexivity. }
  split.
  - apply (proj1 (C10_markers_found_at_any_depth [] nested_case
                    (Dom.Element "failure" [] []) eq_refl Hf)).
    by exists [], [].
  - apply (proj2 (C10_markers_found_at_any_depth [] nested_skip_case
                    (Dom.Element "skipped" [] []) eq_refl Hs)).
    by exists [], [].
Defined.

(** ** Further properties of a run *)

Section Runs.

Variable expat_parse : string → string + Dom.document.
Variable writexml : Dom.document → string.

(** A run on a valid report, in closed form. *)
Lemma splitRP_valid_closed (self : TestResult) (input content : string)
    (doc : Dom.document) (o : Dom.node) (rest : list Dom.node) (w : world) :
  files w !! input = Some content →
  expat_parse content = inr doc →
  Dom.doc_getElementsByTagName doc "testsuite" = o :: rest →
  splitRP expat_parse writexml self input w
  = (Ok tt,
     World
       (files_after writexml o
          (List.filter included (Dom.doc_getElementsByTagName doc "testcase"))
          (files w))
       (stdout w)).
Proof.
  intros Hin Hparse Hsuite. erewrite splitRP_valid by done.
  rewrite output_documents_closed.
  by destruct (List.filter included (Dom.doc_getElementsByTagName doc "testcase")).
Qed.

(** The kinds of run, each rewritten to its closed form. *)
Ltac kinds w input :=
  let content := fresh "content" in
  let Hin := fresh "Hin" in
  let Hparse := fresh "Hparse" in
  let Hsuite := fresh "Hsuite" in
  destruct (files w !! input) as [content|] eqn:Hin;
  [ destruct (expat_parse content) as [?msg|?doc] eqn:Hparse;
    [ erewrite !splitRP_malformed by done
    | match goal with
      | doc : Dom.document |- _ =>
          destruct (Dom.doc_getElementsByTagName doc "testsuite")
            as [|?o ?rest] eqn:Hsuite;
          [ erewrite !splitRP_no_testsuite by done
          | erewrite !splitRP_valid_closed by done ]
      end ]
  | rewrite !splitRP_missing by done ].

(** Every run of [splitRP] returns, and it either prints nothing or
    prints exactly one line and leaves every file as it was: a run never
    both reports an error and writes. *)
Theorem splitRP_writes_or_reports (self : TestResult) (input : string) (w : world) :
  let r := splitRP expat_parse writexml self input w in
  r.1 = Ok tt
  ∧ (stdout r.2 = stdout w
     ∨ (files r.2 = files w ∧ ∃ line, stdout r.2 = stdout w ++ [line])).
Proof.
  cbn zeta. kinds w input; cbn [fst snd files stdout]; split; eauto.
Qed.

Lemma files_after_other (o : Dom.node) (l : list Dom.node)
    (fs : gmap string string) (path : string) :
  path ≠ output_path subteam → files_after writexml o l fs !! path = fs !! path.
Proof.
  intros Hne. destruct l; [reflexivity|].
  cbn [files_after]. by rewrite lookup_insert_ne.
Qed.

(** A run leaves every file other than
    [import-Cluster_Infrastructure.xml] as it was, the input included. *)
Theorem splitRP_touches_one_path (self : TestResult) (input path : string) (w : world) :
  path ≠ "import-Cluster_Infrastructure.xml" →
  files (splitRP expat_parse writexml self input w).2 !! path = files w !! path.
Proof.
  intros Hne. kinds w input; cbn [snd files]; try reflexivity.
  by apply files_after_other.
Qed.

(** A run removes no file: a path that named a file names one after the
    run. *)
Theorem splitRP_removes_no_file (self : TestResult) (input path : string) (w : world) :
  is_Some (files w !! path) →
  is_Some (files (splitRP expat_parse writexml self input w).2 !! path).
Proof.
  intros Hsome. kinds w input; cbn [snd files]; try done.
  destruct (List.filter included (Dom.doc_getElementsByTagName doc "testcase"));
    cbn [files_after]; [done|].
  rewrite lookup_insert. by case_decide.
Qed.

(** On a valid report with at least one case whose name lacks the
    marker, the output file holds the serialised suite of the included
    cases and nothing else, whatever the file held before: the run
    overwrites. *)
Theorem splitRP_overwrites_output (self : TestResult) (input content : string)
    (doc : Dom.document) (o : Dom.node) (rest : list Dom.node)
    (c : Dom.node) (w : world) :
  files w !! input = Some content →
  expat_parse content = inr doc →
  Dom.doc_getElementsByTagName doc "testsuite" = o :: rest →
  In c (Dom.doc_getElementsByTagName doc "testcase") →
  included c = true →
  let l := List.filter included (Dom.doc_getElementsByTagName doc "testcase") in
  files (splitRP expat_parse writexml self input w).2
    !! "import-Cluster_Infrastructure.xml"
  = Some
      (writexml
         (Dom.Document
            [suite_element (Dom.getAttribute o "time") "Cluster_Infrastructure"
               (Z.of_nat (length l)) (count has_failure l) (count has_skipped l) 0
               (map renamed l)])).
Proof.
  intros Hin Hparse Hsuite Hc Hinc l. erewrite splitRP_valid_closed by done.
  cbn [snd files]. fold l.
  assert (Hl : In c l) by (apply filter_In; auto).
  destruct l as [|c0 l0]; [destruct Hl|].
  cbn [files_after]. by rewrite lookup_insert_eq.
Qed.

(** On a valid report in which every case is excluded (or that has
    no case at all), the run writes no file and prints nothing: no empty
    suite is produced, and an output file of an earlier run stays. *)
Theorem splitRP_nothing_included (self : TestResult) (input content : string)
    (doc : Dom.document) (o : Dom.node) (rest : list Dom.node) (w : world) :
  files w !! input = Some content →
  expat_parse content = inr doc →
  Dom.doc_getElementsByTagName doc "testsuite" = o :: rest →
  Forall (λ c, excluded c = true) (Dom.doc_getElementsByTagName doc "testcase") →
  splitRP expat_parse writexml self input w = (Ok tt, w).
Proof.
  intros Hin Hparse Hsuite Hall. erewrite splitRP_valid_closed by done.
  assert (Hnil : List.filter included (Dom.doc_getElementsByTagName doc "testcase") = []).
  { induction Hall as [|c cs Hc _ IH]; simpl; [reflexivity|].
    unfold included at 1. by rewrite Hc. }
  rewrite Hnil. by destruct w.
Qed.

End Runs.

Lemma splitRP_touches_one_path_witness :
  files (splitRP (λ _, inr example_report) names_only {| isJenkinsEnv := false |}
           "report.xml" example_world).2 !! "report.xml"
  = Some "<testsuite/>".
Proof.
  rewrite (splitRP_touches_one_path (λ _, inr example_report) names_only
             {| isJenkinsEnv := false |} "report.xml" "report.xml" example_world);
    [reflexivity | discriminate].
Defined.

Lemma splitRP_removes_no_file_witness :
  is_Some
    (files (splitRP (λ _, inr example_report) names_only {| isJenkinsEnv := false |}
              "report.xml" example_world).2 !! "report.xml").
Proof.
  apply (splitRP_removes_no_file (λ _, inr example_report) names_only
           {| isJenkinsEnv := false |} "report.xml" "report.xml" example_world).
  by exists "<testsuite/>".
Defined.

Lemma splitRP_overwrites_output_witness :
  files (splitRP (λ _, inr example_report) names_only {| isJenkinsEnv := true |}
           "import-Cluster_Infrastructure.xml"
           (World {[ "import-Cluster_Infrastructure.xml" := "stale" ]} [])).2
    !! "import-Cluster_Infrastructure.xml"
  = Some "a,b".
Proof.
  rewrite (splitRP_overwrites_output (λ _, inr example_report) names_only
             {| isJenkinsEnv := true |} "import-Cluster_Infrastructure.xml" "stale"
             example_report
             (Dom.Element "testsuite" [("time", "12.3")]
                [testcase "a" []; testcase "b'" [Dom.Element "failure" [] []]])
             [] (testcase "a" [])
             (World {[ "import-Cluster_Infrastructure.xml" := "stale" ]} []));
    try reflexivity.
  left. reflexivity.
Defined.

Lemma splitRP_nothing_included_witness :
  splitRP (λ _, inr excluded_only_report) names_only {| isJenkinsEnv := false |}
    "report.xml" example_world
  = (Ok tt, example_world).
Proof.
  apply (splitRP_nothing_included (λ _, inr excluded_only_report) names_only
           {| isJenkinsEnv := false |} "report.xml" "<testsuite/>"
           excluded_only_report
           (Dom.Element "testsuite" [("time", "0.1")] [before_suite_case]) []
           example_world); try reflexivity.
  repeat constructor.
Defined.

(** ** Invariants of the two passes *)

Lemma count_bounds (p : Dom.node → bool) (l : list Dom.node) :
  0 ≤ count p l ≤ Z.of_nat (length l).
Proof.
  unfold count. pose proof (List.filter_length_le p l). lia.
Qed.

Lemma replace_no_old (s : string) (old : ascii) :
  ¬ In old (list_ascii_of_string (Py.replace s old "")).
Proof.
  rewrite replace_empty, filter_In. intros [_ H].
  by rewrite Ascii.eqb_refl in H.
Qed.

(** After the first pass there is at most one bucket, keyed
    [Cluster_Infrastructure]; it is not empty, [tests] is the number of
    its records, [failure] and [skipped] lie between 0 and [tests],
    [errors] is 0, and every record holds exactly one name, free of quote
    characters. *)
Theorem bucketing_invariant (cs : list Dom.node) :
  let mods := fold_left bucket_case cs [] in
  (length mods ≤ 1)%nat
  ∧ Forall (λ kv,
      kv.1 = "Cluster_Infrastructure"
      ∧ 1 ≤ tests kv.2
      ∧ tests kv.2 = Z.of_nat (length (cases kv.2))
      ∧ 0 ≤ failure kv.2 ≤ tests kv.2
      ∧ 0 ≤ skipped kv.2 ≤ tests kv.2
      ∧ errors kv.2 = 0
      ∧ Forall (λ cd, ∃ n, names cd = [n]
                  ∧ ¬ In "'"%char (list_ascii_of_string n)) (cases kv.2)) mods.
Proof.
  cbn zeta. rewrite bucketing.
  destruct (List.filter included cs) as [|c l]; [split; [simpl; lia | constructor]|].
  set (l' := c :: l). cbn [mods_of]. split; [simpl; lia|].
  constructor; [|constructor]. cbn [fst snd bucket_of tests failure skipped errors cases].
  pose proof (count_bounds has_failure l'). pose proof (count_bounds has_skipped l').
  rewrite length_map. repeat split; try lia.
  - subst l'. simpl. lia.
  - apply Forall_forall. intros cd. rewrite list_elem_of_In, in_map_iff.
    intros (x & <- & _). eexists. split; [reflexivity|]. apply replace_no_old.
Qed.

Lemma getElementsByTagName_setAttribute (c : Dom.node) (k v name : string) :
  Dom.getElementsByTagName (Dom.setAttribute c k v) name
  = Dom.getElementsByTagName c name.
Proof. by destruct c. Qed.

Lemma has_failure_renamed (c : Dom.node) : has_failure (renamed c) = has_failure c.
Proof. unfold has_failure, renamed. by rewrite getElementsByTagName_setAttribute. Qed.

Lemma has_skipped_renamed (c : Dom.node) : has_skipped (renamed c) = has_skipped c.
Proof. unfold has_skipped, renamed. by rewrite getElementsByTagName_setAttribute. Qed.

Lemma count_map (p : Dom.node → bool) (f : Dom.node → Dom.node) (l : list Dom.node) :
  (∀ c, p (f c) = p c) → count p (map f l) = count p l.
Proof.
  intros Hf. unfold count. f_equal.
  induction l as [|c l IH]; simpl; [reflexivity|].
  rewrite Hf. destruct (p c); simpl; congruence.
Qed.

(** Every document of a run is consistent with itself: it has one suite
    element, whose [time] is that of the first suite of the input, whose
    [tests] is the number of its cases, and whose [failures] and [skipped]
    are the numbers of its cases with a [failure], respectively a
    [skipped], element below them; [errors] is 0. *)
Theorem output_document_consistent (self : TestResult) (o : Dom.node)
    (cs : list Dom.node) (path : string) (d : Dom.document) :
  In (path, d) (output_documents self o cs) →
  path = "import-Cluster_Infrastructure.xml"
  ∧ ∃ ts, Dom.doc_childNodes d = [ts]
      ∧ Dom.getAttribute ts "time" = Dom.getAttribute o "time"
      ∧ Dom.getAttribute ts "name" = "Cluster_Infrastructure"
      ∧ Dom.getAttribute ts "tests" = Py.str (Z.of_nat (length (Dom.childNodes ts)))
      ∧ Dom.getAttribute ts "failures" = Py.str (count has_failure (Dom.childNodes ts))
      ∧ Dom.getAttribute ts "skipped" = Py.str (count has_skipped (Dom.childNodes ts))
      ∧ Dom.getAttribute ts "errors" = "0".
Proof.
  rewrite output_documents_closed.
  destruct (List.filter included cs) as [|c l]; [intros []|].
  set (l' := c :: l). intros [[= <- <-]|[]]. split; [reflexivity|].
  eexists. split; [reflexivity|].
  cbn [suite_element Dom.childNodes].
  change (renamed c :: map renamed l) with (map renamed l').
  change (S (length l)) with (length l').
  rewrite length_map, (count_map has_failure renamed) by apply has_failure_renamed.
  rewrite (count_map has_skipped renamed) by apply has_skipped_renamed.
  repeat split.
Qed.

Lemma output_document_consistent_witness :
  ∃ ts, Dom.doc_childNodes
          (Dom.Document
             [suite_element "1.5" "Cluster_Infrastructure" 1 1 1 0 [both_case]]) = [ts]
      ∧ Dom.getAttribute ts "tests" = Py.str (Z.of_nat (length (Dom.childNodes ts)))
      ∧ Dom.getAttribute ts "failures" = Py.str (count has_failure (Dom.childNodes ts))
      ∧ Dom.getAttribute ts "skipped" = Py.str (count has_skipped (Dom.childNodes ts)).
Proof.
  destruct (output_document_consistent {| isJenkinsEnv := false |}
              (Dom.Element "testsuite" [("time", "1.5")] [both_case]) [both_case]
              "import-Cluster_Infrastructure.xml"
              (Dom.Document
                 [suite_element "1.5" "Cluster_Infrastructure" 1 1 1 0 [both_case]]))
    as (_ & ts & Hts & _ & _ & Ht & Hf & Hs & _).
  - left. reflexivity.
  - exists ts. auto.
Defined.

(** ** The emission pass on records with any number of names *)

Lemma emit_names_tally (c : Dom.node) (result : string) (ns : list string) (t : tally) :
  result = "PASS" ∨ result = "SKIP" ∨ result = "FAIL" →
  fold_left (emit_name c result) ns t =
  {| testsuite :=
       fold_left Dom.appendChild
         (map (λ name, Dom.setAttribute (Dom.cloneNode true c) "name" name) ns)
         (testsuite t);
     testnum := testnum t + Z.of_nat (length ns);
     failnum := failnum t + (if String.eqb result "FAIL" then Z.of_nat (length ns) else 0);
     skipnum := skipnum t + (if String.eqb result "SKIP" then Z.of_nat (length ns) else 0) |}.
Proof.
  intros Hr. revert t. induction ns as [|n ns IH]; intros t.
  - destruct t, Hr as [->|[->| ->]]; simpl; f_equal; lia.
  - cbn [fold_left]. rewrite IH. cbn [length map fold_left]. rewrite Nat2Z.inj_succ.
    destruct Hr as [->|[->| ->]]; unfold emit_name; simpl; f_equal; lia.
Qed.

Lemma case_result_verdict (cd : casedesc) :
  case_result (case cd)
  = if verdict_fail cd then "FAIL" else if verdict_skip cd then "SKIP" else "PASS".
Proof.
  unfold case_result, verdict_fail, verdict_skip, has_failure, has_skipped.
  by destruct (negb (Z.of_nat (length (Dom.getElementsByTagName (case cd) "skipped")) =? 0)),
    (negb (Z.of_nat (length (Dom.getElementsByTagName (case cd) "failure")) =? 0)).
Qed.

Lemma decrement_positive (n : nat) :
  (if Z.of_nat n >? 0 then Z.of_nat n - 1 else Z.of_nat n) = Z.max 0 (Z.of_nat n - 1).
Proof. destruct (Z.gtb_spec (Z.of_nat n) 0); lia. Qed.

(** What one record does to the totals: the suite gains one clone per
    name; [tests] grows by the number of names beyond the first, and so
    does [failures] when the case has a [failure] below it, and [skipped]
    when it has a [skipped] but no [failure] below it.  A record without
    names changes nothing. *)
Lemma emit_case_general (s : totals) (cd : casedesc) :
  emit_case s cd =
  {| suite := fold_left Dom.appendChild (emitted cd) (suite s);
     testscount := testscount s + extra_names cd;
     failurescount := failurescount s + (if verdict_fail cd then extra_names cd else 0);
     skippedcount := skippedcount s + (if verdict_skip cd then extra_names cd else 0) |}.
Proof.
  unfold emit_case. rewrite emit_names_tally by apply case_result_cases.
  cbn [testsuite testnum failnum skipnum]. rewrite case_result_verdict.
  unfold extra_names, emitted. rewrite !Z.add_0_l.
  pose proof (decrement_positive (length (names cd))) as Hdec.
  destruct (verdict_fail cd) eqn:Ef; [|destruct (verdict_skip cd) eqn:Es];
    simpl String.eqb; cbv iota; rewrite ?Hdec; f_equal.
  unfold verdict_skip, verdict_fail in *. rewrite Ef, andb_false_r. reflexivity.
Qed.

Lemma emit_cases_general (cds : list casedesc) (s : totals) :
  fold_left emit_case cds s =
  {| suite := fold_left Dom.appendChild (flat_map emitted cds) (suite s);
     testscount := testscount s + sum_extra (λ _, true) cds;
     failurescount := failurescount s + sum_extra verdict_fail cds;
     skippedcount := skippedcount s + sum_extra verdict_skip cds |}.
Proof.
  revert s. induction cds as [|cd cds IH]; intros s.
  - destruct s. simpl. f_equal; lia.
  - cbn [fold_left]. rewrite IH, emit_case_general. cbn [suite testscount failurescount skippedcount flat_map sum_extra fold_right].
    rewrite fold_left_app. f_equal; unfold sum_extra; lia.
Qed.

(** The document built for any bucket, in closed form. *)
Lemma build_document_general (self : TestResult) (o : Dom.node) (k : string) (v : modrec) :
  build_document self o k v =
  Dom.Document
    [suite_element (Dom.getAttribute o "time") k
       (tests v + sum_extra (λ _, true) (cases v))
       (failure v + sum_extra verdict_fail (cases v))
       (skipped v + sum_extra verdict_skip (cases v))
       (errors v)
       (flat_map emitted (cases v))].
Proof.
  unfold build_document. rewrite emit_cases_general.
  cbn [suite testscount failurescount skippedcount].
  assert (Hk : (if isJenkinsEnv self then k else k) = k) by by destruct (isJenkinsEnv self).
  rewrite Hk. unfold Dom.createElement. cbn [Dom.setAttribute Py.set].
  rewrite appendChild_all. reflexivity.
Qed.

(** The document built for any bucket has one suite element.  Its cases
    are one clone per name of every record, in order.  [tests] is the
    bucket's counter raised by the names beyond the first of every record;
    [failures] is raised by those of the records with a [failure] below
    the case, [skipped] by those of the records with a [skipped] and no
    [failure] below the case; a record without names raises nothing, and
    [errors] is written as it is. *)
Theorem build_document_totals (self : TestResult) (o : Dom.node) (k : string) (v : modrec) :
  ∃ ts, Dom.doc_childNodes (build_document self o k v) = [ts]
    ∧ Dom.childNodes ts = flat_map emitted (cases v)
    ∧ Dom.getAttribute ts "tests"
      = Py.str (tests v + sum_extra (λ _, true) (cases v))
    ∧ Dom.getAttribute ts "failures"
      = Py.str (failure v + sum_extra verdict_fail (cases v))
    ∧ Dom.getAttribute ts "skipped"
      = Py.str (skipped v + sum_extra verdict_skip (cases v))
    ∧ Dom.getAttribute ts "errors" = Py.str (errors v).
Proof.
  rewrite build_document_general. eexists. repeat split.
Qed.

Lemma children_count (cds : list casedesc) :
  Forall (λ cd, names cd ≠ []) cds →
  Z.of_nat (length cds) + sum_extra (λ _, true) cds
  = Z.of_nat (length (flat_map emitted cds)).
Proof.
  induction 1 as [|cd cds Hcd _ IH]; [reflexivity|].
  cbn [length flat_map sum_extra fold_right]. fold (sum_extra (λ _, true) cds).
  rewrite length_app, Nat2Z.inj_add, <- IH. unfold extra_names, emitted.
  rewrite length_map. destruct (names cd); [done|]. simpl length. lia.
Qed.

(** When a bucket's [tests] counts its records and every record has at
    least one name, the [tests] attribute written is the number of cases
    in the suite written: each record is charged once by the first pass
    and once more for every further name. *)
Theorem tests_attribute_counts_children
    (self : TestResult) (o : Dom.node) (k : string) (v : modrec) :
  tests v = Z.of_nat (length (cases v)) →
  Forall (λ cd, names cd ≠ []) (cases v) →
  ∃ ts, Dom.doc_childNodes (build_document self o k v) = [ts]
    ∧ Dom.getAttribute ts "tests" = Py.str (Z.of_nat (length (Dom.childNodes ts))).
Proof.
  intros Htests Hnames. rewrite build_document_general.
  eexists. split; [reflexivity|].
  cbn [suite_element Dom.childNodes]. rewrite <- children_count by done.
  by rewrite Htests.
Qed.

Lemma tests_attribute_counts_children_witness :
  let v := {| cases := [{| case := testcase "a" []; names := ["a"; "a2"; "a3"] |};
                        {| case := both_case; names := ["c"] |}];
              tests := 2; skipped := 1; failure := 1; errors := 0 |} in
  ∃ ts, Dom.doc_childNodes
          (build_document {| isJenkinsEnv := false |}
             (Dom.Element "testsuite" [("time", "3")] []) "k" v) = [ts]
    ∧ Dom.getAttribute ts "tests" = "4"
    ∧ length (Dom.childNodes ts) = 4%nat.
Proof.
  intros v.
  destruct (tests_attribute_counts_children {| isJenkinsEnv := false |}
              (Dom.Element "testsuite" [("time", "3")] []) "k" v eq_refl)
    as (ts & Hts & Htests).
  - repeat constructor; discriminate.
  - exists ts. injection Hts as <-. repeat split.
Defined.

(** ** The search through the whole document *)

Lemma descendant_trans (a b c : Dom.node) :
  Dom.descendant a b → Dom.descendant b c → Dom.descendant a c.
Proof.
  induction 1 as [a b Hb|a x b Hx Hxb IH]; intros Hbc.
  - by apply Dom.desc_deeper with b.
  - apply Dom.desc_deeper with x; auto.
Qed.

(** The search of a document finds the matching nodes among its children
    and below them. *)
Lemma doc_getElementsByTagName_spec (doc : Dom.document) (name : string) (d : Dom.node) :
  In d (Dom.doc_getElementsByTagName doc name)
  ↔ Dom.tag_matches name d = true
    ∧ ∃ n, In n (Dom.doc_childNodes doc) ∧ (d = n ∨ Dom.descendant n d).
Proof.
  unfold Dom.doc_getElementsByTagName. rewrite in_flat_map. split.
  - intros (n & Hn & Hd). apply elements_from_spec in Hd as [Hm Hd]. eauto.
  - intros (Hm & n & Hn & Hd). exists n. split; [done|].
    by apply elements_from_spec.
Qed.

Lemma descendant_setAttribute (c d : Dom.node) (k v : string) :
  Dom.descendant c d → Dom.descendant (Dom.setAttribute c k v) d.
Proof.
  intros H. destruct c; try exact H.
  inversion H as [x Hx|x y Hx Hy]; subst.
  - by apply Dom.desc_child.
  - by apply Dom.desc_deeper with x.
Qed.


Lemma included_child_emitted (self : TestResult) (o : Dom.node) (cs : list Dom.node)
    (c : Dom.node) :
  In c cs → included c = true →
  ∃ d, output_documents self o cs = [(output_path subteam, d)]
     ∧ In (renamed c) (suite_children d).
Proof.
  intros Hc Hinc. rewrite output_documents_closed.
  assert (Hl : In c (List.filter included cs)) by (apply filter_In; auto).
  destruct (List.filter included cs) as [|c0 l]; [destruct Hl|].
  eexists. split; [reflexivity|].
  unfold suite_children, suite_element.
  cbn [Dom.doc_childNodes flat_map Dom.childNodes]. rewrite app_nil_r.
  change (renamed c0 :: map renamed l) with (map renamed (c0 :: l)).
  by apply in_map.
Qed.

(** The search for cases looks at every depth, so a case that holds
    another case does not hide it: the inner case is found on its own.
    When both are included the suite written holds the inner case twice,
    renamed as a case of the suite and untouched inside the clone of the
    outer one. *)
Theorem nested_case_emitted_twice (self : TestResult) (o : Dom.node)
    (doc : Dom.document) (c d : Dom.node) :
  let cases := Dom.doc_getElementsByTagName doc "testcase" in
  In c cases →
  Dom.descendant c d →
  is_element "testcase" d →
  In d cases
  ∧ (included c = true → included d = true →
     ∃ out, output_documents self o cases
              = [("import-Cluster_Infrastructure.xml", out)]
       ∧ In (renamed c) (suite_children out)
       ∧ In (renamed d) (suite_children out)
       ∧ Dom.descendant (renamed c) d).
Proof.
  intros cases Hc Hdesc Hd.
  assert (Hdin : In d cases).
  { apply doc_getElementsByTagName_spec.
    apply doc_getElementsByTagName_spec in Hc as (_ & n & Hn & Hcn).
    split; [by apply tag_matches_is_element|].
    exists n. split; [done|]. right.
    destruct Hcn as [->|Hnc]; [done | by eapply descendant_trans]. }
  split; [exact Hdin|]. intros Hic Hid.
  destruct (included_child_emitted self o cases c Hc Hic) as (out & Hout & Hcout).
  destruct (included_child_emitted self o cases d Hdin Hid) as (out' & Hout' & Hdout).
  rewrite Hout in Hout'. injection Hout' as <-.
  exists out. repeat split; try done.
  by apply descendant_setAttribute.
Qed.

Lemma nested_case_emitted_twice_witness :
  ∃ out, output_documents {| isJenkinsEnv := false |}
           (Dom.Element "testsuite" [("time", "2")] [outer_case])
           (Dom.doc_getElementsByTagName nested_report "testcase")
         = [("import-Cluster_Infrastructure.xml", out)]
    ∧ In (renamed outer_case) (suite_children out)
    ∧ In (renamed inner_case) (suite_children out)
    ∧ Dom.descendant (renamed outer_case) inner_case.
Proof.
  assert (Hc : In outer_case (Dom.doc_getElementsByTagName nested_report "testcase"))
    by (left; reflexivity).
  assert (Hdesc : Dom.descendant outer_case inner_case)
    by (apply Dom.desc_child; left; reflexivity).
  assert (Hd : is_element "testcase" inner_case) by (by eexists _, _).
  exact (proj2 (nested_case_emitted_twice {| isJenkinsEnv := false |}
                  (Dom.Element "testsuite" [("time", "2")] [outer_case])
                  nested_report outer_case inner_case Hc Hdesc Hd)
           eq_refl eq_refl).
Defined.

(** ** Names and attributes of the cases written *)




Lemma set_absent {V : Type} (d : Py.dict V) (k : string) (v : V) :
  Py.get d k = None → Py.set d k v = d ++ [(k, v)].
Proof.
  induction d as [|[k0 v0] d IH]; simpl; [reflexivity|].
  destruct (String.eqb k0 k); [discriminate|]. intros H. f_equal. auto.
Qed.

Lemma replace_absent (s : string) (old : ascii) (new : string) :
  ¬ In old (list_ascii_of_string s) → Py.replace s old new = s.
Proof.
  induction s as [|c s IH]; simpl; [reflexivity|]. intros Hnot.
  destruct (Ascii.eqb_spec c old) as [->|Hne]; [tauto|].
  f_equal. apply IH. tauto.
Qed.

(** A case without a [name] attribute is not excluded: it is bucketed
    under the empty name, and the case written has the attributes of the
    input case followed by an empty [name]. *)
Theorem nameless_case_gets_empty_name (t : string) (attrs : Py.dict string)
    (cs : list Dom.node) :
  Py.get attrs "name" = None →
  let c := Dom.Element t attrs cs in
  included c = true
  ∧ display_name c = ""
  ∧ renamed c = Dom.Element t (attrs ++ [("name", "")]) cs.
Proof.
  intros Hnone c.
  assert (Hname : Dom.getAttribute c "name" = "") by (simpl; by rewrite Hnone).
  assert (Hdisp : display_name c = "") by (unfold display_name; by rewrite Hname).
  repeat split; [|done|].
  - unfold included, excluded. by rewrite Hname.
  - unfold renamed. rewrite Hdisp. simpl. by rewrite set_absent.
Qed.

Lemma nameless_case_gets_empty_name_witness :
  included nameless_case = true
  ∧ display_name nameless_case = ""
  ∧ renamed nameless_case
    = Dom.Element "testcase" [("classname", "suite"); ("name", "")] [].
Proof.
  apply (nameless_case_gets_empty_name "testcase" [("classname", "suite")] []).
  reflexivity.
Defined.

(** A case that has a [name] keeps its attributes in their order: only
    the value of [name] is replaced; and a name without quote characters
    is written as it is, so the case written is the input case. *)
Theorem named_case_keeps_attribute_order (t : string) (attrs : Py.dict string)
    (cs : list Dom.node) (name : string) :
  Py.get attrs "name" = Some name →
  let c := Dom.Element t attrs cs in
  (∃ attrs', renamed c = Dom.Element t attrs' cs ∧ map fst attrs' = map fst attrs)
  ∧ (¬ In "'"%char (list_ascii_of_string name) → renamed c = c).
Proof.
  intros Hname c. subst c. split.
  - eexists. split; [reflexivity|]. apply set_keys. by rewrite Hname.
  - intros Hnot. unfold renamed, display_name. cbn [Dom.getAttribute].
    rewrite Hname. cbn [default]. rewrite replace_absent by done.
    cbn [Dom.setAttribute]. f_equal.
    induction attrs as [|[k0 v0] attrs IH]; [discriminate|].
    simpl in *. destruct (String.eqb k0 "name"); [congruence|].
    f_equal. auto.
Qed.

Lemma named_case_keeps_attribute_order_witness :
  let c := Dom.Element "testcase" [("classname", "x"); ("name", "it's"); ("time", "1")] [] in
  (∃ attrs', renamed c = Dom.Element "testcase" attrs' []
     ∧ map fst attrs' = ["classname"; "name"; "time"])
  ∧ renamed (testcase "plain" []) = testcase "plain" [].
Proof.
  split.
  - apply (proj1 (named_case_keeps_attribute_order "testcase"
                    [("classname", "x"); ("name", "it's"); ("time", "1")] [] "it's"
                    eq_refl)).
  - apply (proj2 (named_case_keeps_attribute_order "testcase" [("name", "plain")] []
                    "plain" eq_refl)).
    simpl. intros [H|[H|[H|[H|[H|[]]]]]]; discriminate.
Defined.

(** ** The script as a whole *)

Lemma TestResult_init_run (environ : gmap string string) (w : world) :
  TestResult_init environ w
  = (Ok {| isJenkinsEnv := bool_decide (is_Some (environ !! "JENKINS_AGENT_NAME")) |},
     World (files w)
       (stdout w ++
          ["isJenkinsEnv: "
             +:+ Py.str_bool (bool_decide (is_Some (environ !! "JENKINS_AGENT_NAME")))
             +:+ "\n"])).
Proof. reflexivity. Qed.

Lemma main_run
    (expat_parse : string → string + Dom.document)
    (writexml : Dom.document → string)
    (environ : gmap string string) (args : Script.Namespace) (w : world) :
  let flag := bool_decide (is_Some (environ !! "JENKINS_AGENT_NAME")) in
  let w0 := World (files w)
              (stdout w ++ ["isJenkinsEnv: " +:+ Py.str_bool flag +:+ "\n"]) in
  Script.main expat_parse writexml environ args w
  = (Ok 0,
     if String.eqb (Script.action args) "split"
     then (splitRP expat_parse writexml {| isJenkinsEnv := flag |}
             (Script.input args) w0).2
     else w0).
Proof.
  intros flag w0. unfold Script.main.
  erewrite bind_Ok by apply TestResult_init_run.
  fold flag. fold w0.
  destruct (String.eqb (Script.action args) "split"); [|reflexivity].
  pose proof (splitRP_returns expat_parse writexml {| isJenkinsEnv := flag |}
                (Script.input args) w0) as Hret.
  destruct (splitRP expat_parse writexml {| isJenkinsEnv := flag |}
              (Script.input args) w0) as [r w1] eqn:Hrun.
  cbn [fst snd] in *. subst r.
  by erewrite bind_Ok by exact Hrun.
Qed.

Lemma splitRP_prints_at_most_one_line
    (expat_parse : string → string + Dom.document)
    (writexml : Dom.document → string)
    (self : TestResult) (input : string) (w : world) :
  ∃ rest, stdout (splitRP expat_parse writexml self input w).2 = stdout w ++ rest
        ∧ (length rest ≤ 1)%nat.
Proof.
  destruct (files w !! input) as [content|] eqn:Hin;
    [|rewrite splitRP_missing by done; eexists; split; [reflexivity | simpl; lia]].
  destruct (expat_parse content) as [msg|doc] eqn:Hparse;
    [erewrite splitRP_malformed by done; eexists; split; [reflexivity | simpl; lia]|].
  destruct (Dom.doc_getElementsByTagName doc "testsuite") as [|o rest] eqn:Hsuite;
    [erewrite splitRP_no_testsuite by done; eexists; split; [reflexivity | simpl; lia]|].
  erewrite splitRP_valid by done. exists []. split; [by rewrite app_nil_r | simpl; lia].
Qed.

(** The script always ends with status 0, also when the input is missing
    or cannot be processed: no exception escapes.  It prints the agent
    flag first, which is set as soon as the variable is in the
    environment, whatever its value, and at most one line after it. *)
Theorem main_exits_zero
    (expat_parse : string → string + Dom.document)
    (writexml : Dom.document → string)
    (environ : gmap string string) (args : Script.Namespace) (w : world) :
  let r := Script.main expat_parse writexml environ args w in
  r.1 = Ok 0
  ∧ ∃ rest,
      stdout r.2
      = stdout w ++
        ("isJenkinsEnv: "
           +:+ Py.str_bool (bool_decide (is_Some (environ !! "JENKINS_AGENT_NAME")))
           +:+ "\n") :: rest
      ∧ (length rest ≤ 1)%nat.
Proof.
  cbn zeta. rewrite main_run. split; [reflexivity|]. cbn [snd].
  destruct (String.eqb (Script.action args) "split").
  - match goal with
    | |- context [splitRP _ _ ?self ?input ?w0] =>
        destruct (splitRP_prints_at_most_one_line expat_parse writexml self input w0)
          as (rest & Hout & Hlen)
    end.
    exists rest. rewrite Hout. cbn [stdout]. by rewrite <- app_assoc.
  - exists []. cbn [stdout]. split; [reflexivity | simpl; lia].
Qed.

(** With a missing input the script still ends with status 0; it has
    printed the flag and the not-present line, in this order, and has
    left the files as they were. *)
Theorem main_missing_input
    (expat_parse : string → string + Dom.document)
    (writexml : Dom.document → string)
    (environ : gmap string string) (path : string) (w : world) :
  files w !! path = None →
  Script.main expat_parse writexml environ
    {| Script.action := "split"; Script.input := path |} w
  = (Ok 0,
     World (files w)
       (stdout w ++
          ["isJenkinsEnv: "
             +:+ Py.str_bool (bool_decide (is_Some (environ !! "JENKINS_AGENT_NAME")))
             +:+ "\n";
           "Input file " +:+ path +:+ " is not present, please check!"])).
Proof.
  intros Hin. rewrite main_run. cbn [Script.action Script.input].
  change (String.eqb "split" "split") with true. cbv iota.
  rewrite splitRP_missing by done. cbn [snd files stdout].
  by rewrite <- app_assoc.
Qed.

Lemma main_missing_input_witness :
  Script.main (λ _, inr example_report) names_only
    {[ "JENKINS_AGENT_NAME" := "" ]}
    {| Script.action := "split"; Script.input := "" |} example_world
  = (Ok 0,
     World (files example_world)
       ["isJenkinsEnv: True\n"; "Input file  is not present, please check!"]).
Proof.
  rewrite (main_missing_input (λ _, inr example_report) names_only
             {[ "JENKINS_AGENT_NAME" := "" ]} "" example_world) by reflexivity.
  reflexivity.
Defined.
